(** * tr4d3r: the equilibrium portfolio managers of [tr4d3r/core/trading.py]

    A shallow embedding of [capped_daily_progression],
    [EquilibriumPortfolioManager], [PseudoTimeEquilibrium] and
    [RealTimeEquilibrium].

    Conventions of the embedding:
    - Python floats are read as exact rationals ([Q]); comparisons are the
      boolean ones of [QArith], and [x / 0] raises [ZeroDivisionError].
    - A Python [dict] is an association list in insertion order with
      pairwise distinct keys.
    - A Python exception is a value of [exn]; code that can raise lives in
      the monad [M] (state passing plus [Val]/[Raise]).
    - The portfolio ("folio") is a collaborator that is not part of
      [trading.py]: each manager states the methods it calls on it as a
      class [Portfolio], and [Env] records the orders handed to it. *)

From Stdlib Require Import QArith Qminmax Lqa List String Bool Lia Permutation.
Import ListNotations.
Local Open Scope Q_scope.

(** ** Numbers *)

Definition Qltb (a b : Q) : bool := negb (Qle_bool b a).

(** Python's two-argument [min(a, b)]: [b] when [b < a], else [a]. *)
Definition py_min (a b : Q) : Q := if Qltb b a then b else a.

(** ** Exceptions and results *)

Inductive exn : Type :=
| AssertionError (msg : string)
| ZeroDivisionError
| UnboundLocalError (var : string)
| KeyError (key : string)
| OtherError (what : string).

Inductive result (A : Type) : Type :=
| Val (a : A)
| Raise (e : exn).
Arguments Val {A} a.
Arguments Raise {A} e.

(** ** capped_daily_progression *)

(** [0.0 < x <= 1.0] *)
Definition in_unit_interval (x : Q) : bool := Qltb 0 x && Qle_bool x 1.

Definition capped_daily_progression (seconds step cap : Q) : result Q :=
  if negb (in_unit_interval step) then
    Raise (AssertionError "Expected 0.0 < step <= 1.0")
  else if negb (in_unit_interval cap) then
    Raise (AssertionError "Expected 0.0 < cap <= 1.0")
  else
    let days := seconds / 86400 in
    Val (py_min cap (step * days)).

(** The keyword defaults [step=0.03, cap=0.5]. *)
Definition default_step : Q := 3 # 100.
Definition default_cap : Q := 1 # 2.

Definition DEFAULT_PROGRESSION_FUNC (seconds : Q) : result Q :=
  capped_daily_progression seconds default_step default_cap.

(** The value returned for in-range parameters, as a total function. *)
Definition progression_value (step cap seconds : Q) : Q :=
  py_min cap (step * (seconds / 86400)).

(** ** The state-and-exception monad *)

Definition M (S A : Type) : Type := S -> result A * S.

Definition ret {S A} (a : A) : M S A := fun s => (Val a, s).

Definition bind {S A B} (m : M S A) (k : A -> M S B) : M S B :=
  fun s => match m s with
           | (Val a, s') => k a s'
           | (Raise e, s') => (Raise e, s')
           end.

Definition raise {S A} (e : exn) : M S A := fun s => (Raise e, s).

Definition get {S} : M S S := fun s => (Val s, s).

Definition modify {S} (f : S -> S) : M S unit := fun s => (Val tt, f s).

(** A computation that raises or returns without touching the state. *)
Definition lift_result {S A} (r : result A) : M S A := fun s => (r, s).

Notation "x <- m ;; k" := (bind m (fun x => k))
  (at level 61, m at next level, right associativity).
Notation "m ;;; k" := (bind m (fun _ => k))
  (at level 61, right associativity).

(** [assert cond, msg] *)
Definition py_assert {S} (cond : bool) (msg : string) : M S unit :=
  if cond then ret tt else raise (AssertionError msg).

(** [a / b] on floats *)
Definition py_div (a b : Q) : result Q :=
  if Qeq_bool b 0 then Raise ZeroDivisionError else Val (a / b).

(** ** Dictionaries *)

Definition dict (V : Type) : Type := list (string * V).

Definition keys {V} (d : dict V) : list string := map fst d.
Definition values {V} (d : dict V) : list V := map snd d.

Fixpoint dict_get {V} (d : dict V) (k : string) : option V :=
  match d with
  | [] => None
  | (k', v) :: rest => if String.eqb k' k then Some v else dict_get rest k
  end.

(** [d[k] = v]: overwrite in place, or append a new key. *)
Fixpoint dict_set {V} (d : dict V) (k : string) (v : V) : dict V :=
  match d with
  | [] => [(k, v)]
  | (k', v') :: rest =>
      if String.eqb k' k then (k', v) :: rest
      else (k', v') :: dict_set rest k v
  end.

(** A well-formed dictionary has no repeated key. *)
Definition wf_dict {V} (d : dict V) : Prop := NoDup (keys d).

(** [sum(xs)]: left to right from [0]. *)
Definition py_sum (xs : list Q) : Q := fold_left Qplus xs 0.

(** [d[k] += x] on a [defaultdict(float)]. *)
Definition defaultdict_iadd (d : dict Q) (k : string) (x : Q) : dict Q :=
  let old := match dict_get d k with Some v => v | None => 0 end in
  dict_set d k (old + x).

(** ** Console output of [Loggable] *)

Inductive level : Type := INFO | WARN | TRACEBACK.

(** The f-strings of [trading.py], kept as structured records (numbers are
    stored as passed, before [round]). *)
Inductive message : Type :=
| MsgSettingEquilibrium (equil_dict : dict Q)
| MsgGap (gap_seconds : Q) (prev_datetime : string)
| MsgWorthTarget (symbol : string) (target_worth ratio cur_worth cur_ratio : Q)
| MsgWorthAvailable (symbol : string) (ava_worth ord_worth bid_worth ask_worth : Q)
| MsgStayingPut (symbol : string)
| MsgAttempting (action symbol : string) (amount : Q) (cash_name : string)
| MsgPlaced (action symbol : string) (amount : Q) (cash_name info : string)
| MsgFake (action symbol : string) (amount : Q) (cash_name : string)
| MsgException (e : exn).

Definition logline : Type := level * message.

Class Loggable (S : Type) : Type := { emit : logline -> S -> S }.

Definition _info {S} `{Loggable S} (msg : message) : M S unit :=
  modify (emit (INFO, msg)).
Definition _warn {S} `{Loggable S} (msg : message) : M S unit :=
  modify (emit (WARN, msg)).

(** ** EquilibriumPortfolioManager *)

Record Params : Type := mkParams {
  cash_ratio : option Q;
  progression_func : option (Q -> result Q);
  name : option string
}.

Definition empty_params : Params := mkParams None None None.

Record Manager : Type := mkManager {
  _initial_equilibrium : dict Q;
  _running_equilibrium : dict Q;
  params : Params
}.

(** [__init__(self, equilibrium, params=None)] *)
Definition __init__ (equilibrium : dict Q) (params : option Params) : Manager :=
  mkManager equilibrium equilibrium
            (match params with Some p => p | None => empty_params end).

(** [self.params.get("cash_ratio", 0.03)] *)
Definition get_cash_ratio (p : Params) : Q :=
  match cash_ratio p with Some c => c | None => 3 # 100 end.

(** [self.params.get("progression_func", DEFAULT_PROGRESSION_FUNC)] *)
Definition get_progression_func (p : Params) : Q -> result Q :=
  match progression_func p with Some f => f | None => DEFAULT_PROGRESSION_FUNC end.

(** The manager object together with the console it prints to. *)
Record Obj : Type := mkObj { self : Manager; stdout : list logline }.

#[export] Instance Obj_Loggable : Loggable Obj :=
  {| emit l o := mkObj (self o) (stdout o ++ [l]) |}.

Definition set_running (equil_dict : dict Q) (o : Obj) : Obj :=
  mkObj (mkManager (_initial_equilibrium (self o)) equil_dict (params (self o)))
        (stdout o).

(** The [equilibrium] property setter. *)
Definition equilibrium_setter (equil_dict : dict Q) : M Obj unit :=
  _info (MsgSettingEquilibrium equil_dict) ;;;
  o <- get ;;
  py_assert (Qle_bool (py_sum (values equil_dict))
                      (1 - get_cash_ratio (params (self o))))
            "Too much total ratio for items" ;;;
  modify (set_running equil_dict).

(** The inner loop of [linear_update]: one source dictionary. Returns the
    updated [raw_combination] and [_total_ratio]. *)
Fixpoint collect_items (items : dict Q) (_coeff : Q)
         (raw_combination : dict Q) (_total_ratio : Q) : result (dict Q * Q) :=
  match items with
  | [] => Val (raw_combination, _total_ratio)
  | (_symbol, _ratio) :: rest =>
      if negb (Qle_bool 0 _ratio) then
        Raise (AssertionError "Expected non-negative ratio")
      else if Qltb 0 _ratio then
        collect_items rest _coeff
                      (defaultdict_iadd raw_combination _symbol (_ratio * _coeff))
                      (_total_ratio + _ratio)
      else collect_items rest _coeff raw_combination _total_ratio
  end.

(** The outer loop over [zip(equil_dictl, coefficients)]. Returns
    [raw_combination] and [total_coeff]. *)
Fixpoint collect_dicts (cash : Q) (pairs : list (dict Q * Q))
         (raw_combination : dict Q) (total_coeff : Q) : result (dict Q * Q) :=
  match pairs with
  | [] => Val (raw_combination, total_coeff)
  | (_dict, _coeff) :: rest =>
      match collect_items _dict _coeff raw_combination 0 with
      | Raise e => Raise e
      | Val (raw', _total_ratio) =>
          if negb (Qle_bool _total_ratio (1 - cash)) then
            Raise (AssertionError "Too much total ratio for items")
          else collect_dicts cash rest raw' (total_coeff + _coeff)
      end
  end.

(** [{_k: _v / total_coeff for _k, _v in raw_combination.items()}] *)
Fixpoint normalize (items : dict Q) (total_coeff : Q) : result (dict Q) :=
  match items with
  | [] => Val []
  | (_k, _v) :: rest =>
      match py_div _v total_coeff with
      | Raise e => Raise e
      | Val q =>
          match normalize rest total_coeff with
          | Raise e => Raise e
          | Val d => Val ((_k, q) :: d)
          end
      end
  end.

Definition linear_update (equil_dictl : list (dict Q)) (coefficients : list Q)
  : M Obj unit :=
  o <- get ;;
  acc <- lift_result
           (collect_dicts (get_cash_ratio (params (self o)))
                          (combine equil_dictl coefficients) [] 0) ;;
  new_equilibrium <- lift_result (normalize (fst acc) (snd acc)) ;;
  equilibrium_setter new_equilibrium.

(** *** Persistence *)

(** The pickled dictionary with its two keys. *)
Record pkl_dict : Type := mkPkl {
  pkl_equilibrium : dict Q;
  pkl_params : Params
}.

Section Pickle.
(** [dill] is a third-party serializer: it is a parameter here. *)
Variable bytes : Type.
Variable pickle_dump : pkl_dict -> bytes.
Variable pickle_load : bytes -> result pkl_dict.

(** Files by path. *)
Definition filesystem : Type := dict bytes.

Definition dump_pickle (self : Manager) (pkl_path : string)
  : M filesystem unit :=
  let pkl := mkPkl (_running_equilibrium self) (params self) in
  modify (fun fs => dict_set fs pkl_path (pickle_dump pkl)).

Definition load_pickle (pkl_path : string) : M filesystem Manager :=
  fs <- get ;;
  match dict_get fs pkl_path with
  | None => raise (OtherError "FileNotFoundError")
  | Some b =>
      pkl <- lift_result (pickle_load b) ;;
      let equil_dict := pkl_equilibrium pkl in
      let param_dict := pkl_params pkl in
      ret (__init__ equil_dict (Some param_dict))
  end.
End Pickle.

(** ** The tick loop: shared pieces *)

Inductive pyval : Type := PyNone | PyInt (z : Z) | PyFloat (q : Q).

Inductive side : Type := Buy | Sell.

(** A call of [folio.market_buy] or [folio.market_sell]. *)
Record order : Type := mkOrder {
  order_side : side;
  order_symbol : string;
  order_amount : Q
}.

(** What a tick acts on: the portfolio, the console, and the market orders
    handed to the portfolio so far (oldest first). *)
Record Env (F : Type) : Type := mkEnv {
  folio : F;
  console : list logline;
  submitted : list order
}.
Arguments mkEnv {F}.
Arguments folio {F}.
Arguments console {F}.
Arguments submitted {F}.

#[export] Instance Env_Loggable (F : Type) : Loggable (Env F) :=
  {| emit l env := mkEnv (folio env) (console env ++ [l]) (submitted env) |}.

(** A method call on the portfolio (or on one of its items). *)
Definition call {F A} (op : F -> result A * F) : M (Env F) A :=
  fun env =>
    let (r, f') := op (folio env) in
    (r, mkEnv f' (console env) (submitted env)).

Definition record_order {F} (o : order) : M (Env F) unit :=
  modify (fun env => mkEnv (folio env) (console env) (submitted env ++ [o])).

(** [for x in xs: body(x)] *)
Fixpoint for_each {S A} (body : A -> M S unit) (xs : list A) : M S unit :=
  match xs with
  | [] => ret tt
  | x :: rest => body x ;;; for_each body rest
  end.

(** [wrappy.guard(fallback_retval, print_traceback)]: the decorated call
    returns what the function returns, and the fallback when it raises. *)
Definition guard {F A} (fallback_retval : A) (print_traceback : bool)
           (f : M (Env F) A) : M (Env F) A :=
  fun env =>
    match f env with
    | (Val a, env') => (Val a, env')
    | (Raise e, env') =>
        (Val fallback_retval,
         if print_traceback then emit (TRACEBACK, MsgException e) env' else env')
    end.

(** Reading a local variable that may not have been assigned. *)
Definition read_local {S A} (var : string) (v : option A) : M S A :=
  match v with
  | Some a => ret a
  | None => raise (UnboundLocalError var)
  end.

(** ** PseudoTimeEquilibrium *)

Module PseudoTimeEquilibrium.
(** The simulated portfolio, its items and its clock: the methods
    [tick_write] calls on [folio] and on [folio[symbol]]. *)
Class Portfolio (F : Type) : Type := {
  Time : Type;
  Item : Type;
  Info : Type;
  folio_tick : Time -> F -> result Q * F;
  folio_getitem : string -> F -> result Item * F;
  item_name : Item -> string;
  item_bid_worth : Item -> Time -> F -> result Q * F;
  item_ask_worth : Item -> Time -> F -> result Q * F;
  folio_worth : Time -> F -> result Q * F;
  folio_market_buy : string -> Q -> Time -> F -> result Info * F;
  folio_market_sell : string -> Q -> Time -> F -> result Info * F
}.

Section Manager.
Context {F : Type} {P : Portfolio F}.

Definition market_buy (symbol : string) (amount : Q) (time : Time)
  : M (Env F) Info :=
  record_order (mkOrder Buy symbol amount) ;;;
  call (folio_market_buy symbol amount time).

Definition market_sell (symbol : string) (amount : Q) (time : Time)
  : M (Env F) Info :=
  record_order (mkOrder Sell symbol amount) ;;;
  call (folio_market_sell symbol amount time).

(** The local variables of one loop iteration once the step size has
    been asserted. *)
Record locals : Type := mkLocals {
  _item_exists : bool;
  _bid_worth : Q;
  _ask_worth : Q;
  _target_worth : Q;
  _step : Q
}.

(** The loop body up to [assert _step <= 1.0]. *)
Definition observe (self : Manager) (gap_seconds : Q) (time : Time)
           (_symbol : string) (_ratio : Q) : M (Env F) locals :=
  _item <- call (folio_getitem _symbol) ;;
  let _item_exists := String.eqb (item_name _item) _symbol in
  _bid_worth <- (if _item_exists then call (item_bid_worth _item time)
                 else ret 0) ;;
  _ask_worth <- (if _item_exists then call (item_ask_worth _item time)
                 else ret 0) ;;
  worth <- call (folio_worth time) ;;
  let _target_worth := _ratio * worth in
  _step <- lift_result (get_progression_func (params self) gap_seconds) ;;
  py_assert (Qle_bool _step 1) "Step size too large" ;;;
  ret (mkLocals _item_exists _bid_worth _ask_worth _target_worth _step).

(** The [if]/[elif]/[else] that closes the loop body. *)
Definition trade (time : Time) (_symbol : string) (l : locals)
  : M (Env F) unit :=
  if Qltb (_ask_worth l) (_target_worth l) then
    let _amount := (_target_worth l - _ask_worth l) * _step l in
    market_buy _symbol _amount time ;;; ret tt
  else if _item_exists l && Qltb (_target_worth l) (_bid_worth l) then
    let _amount := (_bid_worth l - _target_worth l) * _step l in
    market_sell _symbol _amount time ;;; ret tt
  else ret tt.

Definition loop_body (self : Manager) (gap_seconds : Q) (time : Time)
           (entry : string * Q) : M (Env F) unit :=
  l <- observe self gap_seconds time (fst entry) (snd entry) ;;
  trade time (fst entry) l.

(** The method has no [return] statement: it yields [None]. *)
Definition tick_write (self : Manager) (time : Time) : M (Env F) pyval :=
  gap_seconds <- call (folio_tick time) ;;
  for_each (loop_body self gap_seconds time) (_running_equilibrium self) ;;;
  ret PyNone.
End Manager.
End PseudoTimeEquilibrium.

(** ** RealTimeEquilibrium *)

Module RealTimeEquilibrium.
(** The live portfolio and its items: the attributes and methods
    [tick_write] uses. [datetime_to_string] comes from [tr4d3r.utils.misc];
    [str_info] is the [str()] an f-string applies to what the order call
    returned; [folio_open_order_values] returns a mapping that is read with
    [open_order_values[symbol]]. *)
Class Portfolio (F : Type) : Type := {
  Item : Type;
  Info : Type;
  Datetime : Type;
  datetime_to_string : Datetime -> string;
  folio_last_tick_time : F -> Datetime;
  folio_cash_name : F -> string;
  folio_tick : bool -> F -> result Q * F;
  folio_worth : F -> result Q * F;
  folio_open_order_values : F -> result (string -> result Q) * F;
  folio_getitem : string -> F -> result Item * F;
  item_name : Item -> string;
  item_worth : Item -> F -> result Q * F;
  item_bid_worth : Item -> F -> result Q * F;
  item_ask_worth : Item -> F -> result Q * F;
  folio_market_buy : string -> Q -> F -> result Info * F;
  folio_market_sell : string -> Q -> F -> result Info * F;
  str_info : Info -> string
}.

Section Manager.
Context {F : Type} {P : Portfolio F}.

Definition market_buy (symbol : string) (amount : Q) : M (Env F) Info :=
  record_order (mkOrder Buy symbol amount) ;;;
  call (folio_market_buy symbol amount).

Definition market_sell (symbol : string) (amount : Q) : M (Env F) Info :=
  record_order (mkOrder Sell symbol amount) ;;;
  call (folio_market_sell symbol amount).

(** The local variables of [subroutine] after [assert step <= 1.0]. *)
Record locals : Type := mkLocals {
  item_exists : bool;
  ava_worth : Q;
  ord_worth : Q;
  cur_worth : Q;
  bid_worth : Q;
  ask_worth : Q;
  cur_ratio : Q;
  target_worth : Q;
  step : Q
}.

(** [amount], [action] and [func]: assigned in two of three branches. *)
Record tentative : Type := mkTentative {
  amount : option Q;
  action : option string;
  func : option (string -> Q -> M (Env F) Info)
}.

(** [subroutine] up to the two [_info] lines that report the worths. *)
Definition observe (self : Manager) (gap_seconds folio_worth : Q)
           (open_order_values : string -> result Q)
           (symbol : string) (ratio : Q) : M (Env F) locals :=
  item <- call (folio_getitem symbol) ;;
  let item_exists := String.eqb (item_name item) symbol in
  ava_worth <- (if item_exists then call (item_worth item) else ret 0) ;;
  bid_worth <- (if item_exists then call (item_bid_worth item) else ret 0) ;;
  ask_worth <- (if item_exists then call (item_ask_worth item) else ret 0) ;;
  ord_worth <- lift_result (open_order_values symbol) ;;
  let cur_worth := ava_worth + ord_worth in
  let bid_worth := bid_worth + ord_worth in
  let ask_worth := ask_worth + ord_worth in
  cur_ratio <- lift_result (py_div cur_worth folio_worth) ;;
  let target_worth := ratio * folio_worth in
  step <- lift_result (get_progression_func (params self) gap_seconds) ;;
  py_assert (Qle_bool step 1) "Step size too large" ;;;
  _info (MsgWorthTarget symbol target_worth ratio cur_worth cur_ratio) ;;;
  _info (MsgWorthAvailable symbol ava_worth ord_worth bid_worth ask_worth) ;;;
  ret (mkLocals item_exists ava_worth ord_worth cur_worth bid_worth ask_worth
                cur_ratio target_worth step).

(** The [if]/[elif]/[else] that computes the tentative market order. *)
Definition decide (symbol : string) (l : locals) : M (Env F) tentative :=
  if Qltb (ask_worth l) (target_worth l) then
    ret (mkTentative (Some ((target_worth l - cur_worth l) * step l))
                     (Some "market buy"%string) (Some market_buy))
  else if item_exists l && Qltb (target_worth l) (bid_worth l) then
    ret (mkTentative (Some ((cur_worth l - target_worth l) * step l))
                     (Some "market sell"%string) (Some market_sell))
  else
    _info (MsgStayingPut symbol) ;;;
    ret (mkTentative None None None).

(** From [# make market order] to the end of [subroutine]. *)
Definition make_market_order (execute : bool) (symbol : string)
           (t : tentative) : M (Env F) pyval :=
  action <- read_local "action" (action t) ;;
  amount <- read_local "amount" (amount t) ;;
  env <- get ;;
  let cash_name := folio_cash_name (folio env) in
  if execute then
    _warn (MsgAttempting action symbol amount cash_name) ;;;
    func <- read_local "func" (func t) ;;
    info <- func symbol amount ;;
    _warn (MsgPlaced action symbol amount cash_name (str_info info)) ;;;
    ret PyNone
  else
    _info (MsgFake action symbol amount cash_name) ;;;
    ret PyNone.

Definition subroutine (self : Manager) (execute : bool)
           (gap_seconds folio_worth : Q)
           (open_order_values : string -> result Q)
           (symbol : string) (ratio : Q) : M (Env F) pyval :=
  l <- observe self gap_seconds folio_worth open_order_values symbol ratio ;;
  t <- decide symbol l ;;
  make_market_order execute symbol t.

Definition guarded_subroutine (self : Manager) (execute : bool)
           (gap_seconds folio_worth : Q)
           (open_order_values : string -> result Q)
           (symbol : string) (ratio : Q) : M (Env F) pyval :=
  guard (PyInt 0) true
        (subroutine self execute gap_seconds folio_worth open_order_values
                    symbol ratio).

(** [subroutine(_symbol, _ratio)]: the returned value is dropped. *)
Definition loop_body (self : Manager) (execute : bool)
           (gap_seconds folio_worth : Q)
           (open_order_values : string -> result Q)
           (entry : string * Q) : M (Env F) unit :=
  guarded_subroutine self execute gap_seconds folio_worth open_order_values
                     (fst entry) (snd entry) ;;;
  ret tt.

Definition tick_write (self : Manager) (execute : bool) : M (Env F) pyval :=
  env <- get ;;
  let prev_datetime := datetime_to_string (folio_last_tick_time (folio env)) in
  gap_seconds <- call (folio_tick execute) ;;
  _info (MsgGap gap_seconds prev_datetime) ;;;
  folio_worth <- call folio_worth ;;
  open_order_values <- call folio_open_order_values ;;
  for_each (loop_body self execute gap_seconds folio_worth open_order_values)
           (_running_equilibrium self) ;;;
  ret (PyFloat gap_seconds).
End Manager.
End RealTimeEquilibrium.

Module Pseudo := PseudoTimeEquilibrium.
Module Real := RealTimeEquilibrium.

(** ** Vocabulary of the statements *)

(** The value a [defaultdict(float)] yields for a key. *)
Definition getz (o : option Q) : Q :=
  match o with Some v => v | None => 0 end.

(** What one source dictionary does to the entry of [k] in
    [raw_combination]. *)
Definition item_acc (d : dict Q) (c : Q) (k : string) (o : option Q)
  : option Q :=
  match dict_get d k with
  | Some r => if Qltb 0 r then Some (getz o + r * c) else o
  | None => o
  end.




(** The invariant asked of one source: no negative ratio, and a total of at
    most [1 - cash]. *)
Definition source_ok (cash : Q) (d : dict Q) : Prop :=
  Forall (fun kv => 0 <= snd kv) d /\ py_sum (values d) <= 1 - cash.


(** [Σ coeff_i * (sum of the ratios of source i)] *)
Definition weighted_total (pairs : list (dict Q * Q)) : Q :=
  fold_right (fun p acc => snd p * py_sum (values (fst p)) + acc) 0 pairs.

(** Every value of a dictionary divided by [total]. *)
Definition scale (total : Q) (d : dict Q) : dict Q :=
  map (fun kv => (fst kv, snd kv / total)) d.

(** A computation that hands no order to the portfolio. *)
Definition quiet {F A} (m : M (Env F) A) : Prop :=
  forall env r env', m env = (r, env') -> submitted env' = submitted env.

(** ** A small portfolio to run the managers on *)

(** Holdings by symbol (worth, bid worth, ask worth) and the total worth.
    Orders for the symbol [BAD] are rejected by the broker. *)
Record Toy : Type := mkToy {
  holdings : dict (Q * Q * Q);
  total : Q
}.

Definition toy_getitem (symbol : string) (f : Toy) : result string * Toy :=
  (Val (match dict_get (holdings f) symbol with
        | Some _ => symbol
        | None => "cash"%string
        end), f).

Definition toy_read (sel : Q * Q * Q -> Q) (item : string) (f : Toy)
  : result Q * Toy :=
  match dict_get (holdings f) item with
  | Some t => (Val (sel t), f)
  | None => (Raise (KeyError item), f)
  end.

Definition toy_order (symbol : string) (amount : Q) (f : Toy)
  : result unit * Toy :=
  if String.eqb symbol "BAD" then (Raise (OtherError "order rejected"), f)
  else (Val tt, f).

#[export] Instance toy_pseudo : PseudoTimeEquilibrium.Portfolio Toy := {|
  PseudoTimeEquilibrium.Time := Q;
  PseudoTimeEquilibrium.Item := string;
  PseudoTimeEquilibrium.Info := unit;
  PseudoTimeEquilibrium.folio_tick := fun _ f => (Val 86400, f);
  PseudoTimeEquilibrium.folio_getitem := toy_getitem;
  PseudoTimeEquilibrium.item_name := fun i => i;
  PseudoTimeEquilibrium.item_bid_worth :=
    fun i _ => toy_read (fun t => snd (fst t)) i;
  PseudoTimeEquilibrium.item_ask_worth := fun i _ => toy_read snd i;
  PseudoTimeEquilibrium.folio_worth := fun _ f => (Val (total f), f);
  PseudoTimeEquilibrium.folio_market_buy := fun s a _ => toy_order s a;
  PseudoTimeEquilibrium.folio_market_sell := fun s a _ => toy_order s a
|}.

#[export] Instance toy_real : RealTimeEquilibrium.Portfolio Toy := {|
  RealTimeEquilibrium.Item := string;
  RealTimeEquilibrium.Info := unit;
  RealTimeEquilibrium.Datetime := string;
  RealTimeEquilibrium.datetime_to_string := fun d => d;
  RealTimeEquilibrium.folio_last_tick_time := fun _ => "2021-01-01"%string;
  RealTimeEquilibrium.folio_cash_name := fun _ => "USD"%string;
  RealTimeEquilibrium.folio_tick := fun _ f => (Val 86400, f);
  RealTimeEquilibrium.folio_worth := fun f => (Val (total f), f);
  RealTimeEquilibrium.folio_open_order_values :=
    fun f => (Val (fun _ => Val 0), f);
  RealTimeEquilibrium.folio_getitem := toy_getitem;
  RealTimeEquilibrium.item_name := fun i => i;
  RealTimeEquilibrium.item_worth := toy_read (fun t => fst (fst t));
  RealTimeEquilibrium.item_bid_worth := toy_read (fun t => snd (fst t));
  RealTimeEquilibrium.item_ask_worth := toy_read snd;
  RealTimeEquilibrium.folio_market_buy := toy_order;
  RealTimeEquilibrium.folio_market_sell := toy_order;
  RealTimeEquilibrium.str_info := fun _ => "ok"%string
|}.

Definition toy_folio : Toy :=
  mkToy [("XYZ"%string, (100, 100, 101));
         ("HLD"%string, (200, 199, 201));
         ("OVR"%string, (300, 299, 301))]
        1000.

Definition toy_env : Env Toy := mkEnv toy_folio [] [].

(** Targets: buy [XYZ], hold [HLD], buy [BAD] (rejected), sell [OVR]. *)
Definition toy_manager : Manager :=
  __init__ [("XYZ"%string, 1 # 5); ("HLD"%string, 1 # 5);
            ("BAD"%string, 1 # 10); ("OVR"%string, 1 # 5)] None.

Definition calm_manager : Manager :=
  __init__ [("XYZ"%string, 1 # 5); ("HLD"%string, 1 # 5)] None.

(** A manager object with an empty console. *)
Definition fresh_obj (equilibrium : dict Q) : Obj :=
  mkObj (__init__ equilibrium None) [].

(** The trivial serializer: the pickled dictionary itself. *)
Definition id_dump (p : pkl_dict) : pkl_dict := p.
Definition id_load (p : pkl_dict) : result pkl_dict := Val p.

(** *** Inputs used in the examples *)

(** An equilibrium with a negative ratio and a total of zero. *)
Definition negative_equilibrium : dict Q :=
  [("A"%string, - (1 # 2)); ("B"%string, 1 # 2)].

(** A manager whose running equilibrium has moved away from the initial
    one. *)
Definition drifted_manager : Manager :=
  self (snd (equilibrium_setter [("A"%string, 3 # 10)]
                                (fresh_obj [("A"%string, 1 # 2)]))).

Definition toy_oov : string -> result Q := fun _ => Val 0.

(** What the toy portfolio shows for [XYZ] (simulated) and [OVR] (live)
    after a gap of one day. *)
Definition toy_step : Q := py_min default_cap (default_step * (86400 / 86400)).

Definition toy_xyz_locals : Pseudo.locals :=
  Pseudo.mkLocals true 100 101 ((1 # 5) * 1000) toy_step.

Definition toy_ovr_locals : Real.locals :=
  Real.mkLocals true 300 0 (300 + 0) (299 + 0) (301 + 0)
                ((300 + 0) / 1000) ((1 # 5) * 1000) toy_step.

Definition toy_ovr_env : Env Toy :=
  mkEnv toy_folio
        [(INFO, MsgWorthTarget "OVR" ((1 # 5) * 1000) (1 # 5) (300 + 0)
                               ((300 + 0) / 1000));
         (INFO, MsgWorthAvailable "OVR" 300 0 (299 + 0) (301 + 0))]
        [].

Definition toy_hld_pseudo : Pseudo.locals :=
  Pseudo.mkLocals true 199 201 ((1 # 5) * 1000) toy_step.

Definition toy_hld_real : Real.locals :=
  Real.mkLocals true 200 0 (200 + 0) (199 + 0) (201 + 0)
                ((200 + 0) / 1000) ((1 # 5) * 1000) toy_step.

Definition toy_hld_env : Env Toy :=
  mkEnv toy_folio
        [(INFO, MsgWorthTarget "HLD" ((1 # 5) * 1000) (1 # 5) (200 + 0)
                               ((200 + 0) / 1000));
         (INFO, MsgWorthAvailable "HLD" 200 0 (199 + 0) (201 + 0))]
        [].

(** The live state in which the order for [BAD] is rejected, and the
    simulated states before and after the iteration of [BAD]. *)
Definition toy_bad_env : Env Toy :=
  Eval vm_compute in
    snd (Real.subroutine toy_manager true 86400 1000 toy_oov "BAD" (1 # 10)
                         toy_env).

Definition toy_before_bad : Env Toy :=
  Eval vm_compute in
    snd (for_each (Pseudo.loop_body toy_manager 86400 (0 : Q))
                  [("XYZ"%string, 1 # 5); ("HLD"%string, 1 # 5)] toy_env).

Definition toy_after_bad : Env Toy :=
  Eval vm_compute in
    snd (Pseudo.loop_body toy_manager 86400 (0 : Q) ("BAD"%string, 1 # 10)
                          toy_before_bad).

Definition calm_after_tick : Env Toy :=
  Eval vm_compute in snd (Pseudo.tick_write calm_manager (0 : Q) toy_env).

(** [xs] is [ys] with some of its elements left out. *)
Inductive subseq {A : Type} : list A -> list A -> Prop :=
| subseq_nil : subseq [] []
| subseq_skip (y : A) (xs ys : list A) : subseq xs ys -> subseq xs (y :: ys)
| subseq_take (x : A) (xs ys : list A) :
    subseq xs ys -> subseq (x :: xs) (x :: ys).

(** A portfolio that is worth nothing, and managers with progression
    functions of their own: one that always returns a step of [2], one that
    always returns [1/10]. *)
Definition broke_env : Env Toy := mkEnv (mkToy [] 0) [] [].

Definition hasty_manager : Manager :=
  __init__ [("XYZ"%string, 1 # 5)]
           (Some (mkParams None (Some (fun _ => Val 2)) None)).

Definition steady_manager : Manager :=
  __init__ [("XYZ"%string, 1 # 5); ("OVR"%string, 1 # 5)]
           (Some (mkParams None (Some (fun _ => Val (1 # 10))) None)).

(** ** tick_read *)

(** A value of the observation record: the time stamp or a number. *)
Inductive datum (T : Type) : Type :=
| Moment (t : T)
| Number (q : Q).
Arguments Moment {T} t.
Arguments Number {T} q.

(** The four keys a symbol adds to the record. *)
Definition symbol_fields (_symbol : string) : list string :=
  [("P:" ++ _symbol)%string; ("Q:" ++ _symbol)%string;
   ("C:" ++ _symbol)%string; ("% " ++ _symbol)%string].

(** The four keys of the dictionary literal. *)
Definition base_fields : list string :=
  ["time"; "principal"; "worth"; "% cash"]%string.

Module PseudoTimeEquilibriumRead.
(** What [tick_read] uses of the simulated portfolio beyond [Portfolio]:
    [folio.principal.quantity], [folio.cash.worth()],
    [folio.market.get_price(symbol, time)], and [quantity], [unit_cost]
    and [worth(time)] of an item. *)
Class Readings (F : Type) {P : Pseudo.Portfolio F} : Type := {
  folio_principal_quantity : F -> Q;
  folio_cash_worth : F -> result Q * F;
  market_get_price : string -> Pseudo.Time -> F -> result Q * F;
  item_quantity : Pseudo.Item -> Q;
  item_unit_cost : Pseudo.Item -> Q;
  item_worth : Pseudo.Item -> Pseudo.Time -> F -> result Q * F
}.

Section Manager.
Context {F : Type} {P : Pseudo.Portfolio F} {R : Readings F}.

(** The [for _symbol in self.equilibrium.keys()] loop. *)
Fixpoint read_symbols (time : Pseudo.Time) (worth : Q) (symbols : list string)
         (data : dict (datum Pseudo.Time))
  : M (Env F) (dict (datum Pseudo.Time)) :=
  match symbols with
  | [] => ret data
  | _symbol :: rest =>
      price <- call (market_get_price _symbol time) ;;
      let data := dict_set data ("P:" ++ _symbol) (Number price) in
      item <- call (Pseudo.folio_getitem _symbol) ;;
      let data := dict_set data ("Q:" ++ _symbol)
                           (Number (item_quantity item)) in
      item <- call (Pseudo.folio_getitem _symbol) ;;
      let data := dict_set data ("C:" ++ _symbol)
                           (Number (item_unit_cost item)) in
      item <- call (Pseudo.folio_getitem _symbol) ;;
      item_worth <- call (item_worth item time) ;;
      percent <- lift_result (py_div (100 * item_worth) worth) ;;
      let data := dict_set data ("% " ++ _symbol) (Number percent) in
      read_symbols time worth rest data
  end.

Definition tick_read (self : Manager) (time : Pseudo.Time)
  : M (Env F) (dict (datum Pseudo.Time)) :=
  worth <- call (Pseudo.folio_worth time) ;;
  env <- get ;;
  let principal := folio_principal_quantity (folio env) in
  cash_worth <- call folio_cash_worth ;;
  percent_cash <- lift_result (py_div (100 * cash_worth) worth) ;;
  let data := [("time"%string, Moment time);
               ("principal"%string, Number principal);
               ("worth"%string, Number worth);
               ("% cash"%string, Number percent_cash)] in
  read_symbols time worth (keys (_running_equilibrium self)) data.
End Manager.
End PseudoTimeEquilibriumRead.

Module RealTimeEquilibriumRead.
(** What [tick_read] uses of the live portfolio beyond [Portfolio]. The
    time stamp [utcnow()] is an argument of [tick_read]: the value the
    clock gives when the record is built. *)
Class Readings (F : Type) {P : Real.Portfolio F} : Type := {
  folio_principal_quantity : F -> Q;
  folio_cash_worth : F -> result Q * F;
  market_get_price : string -> F -> result Q * F;
  item_quantity : Real.Item -> Q;
  item_unit_cost : Real.Item -> Q
}.

Section Manager.
Context {F : Type} {P : Real.Portfolio F} {R : Readings F}.

Fixpoint read_symbols (worth : Q) (symbols : list string)
         (data : dict (datum Real.Datetime))
  : M (Env F) (dict (datum Real.Datetime)) :=
  match symbols with
  | [] => ret data
  | _symbol :: rest =>
      _price <- call (market_get_price _symbol) ;;
      item <- call (Real.folio_getitem _symbol) ;;
      let _quantity := item_quantity item in
      let data := dict_set data ("P:" ++ _symbol) (Number _price) in
      let data := dict_set data ("Q:" ++ _symbol) (Number _quantity) in
      item <- call (Real.folio_getitem _symbol) ;;
      let data := dict_set data ("C:" ++ _symbol)
                           (Number (item_unit_cost item)) in
      percent <- lift_result (py_div (100 * (_price * _quantity)) worth) ;;
      let data := dict_set data ("% " ++ _symbol) (Number percent) in
      read_symbols worth rest data
  end.

Definition tick_read (self : Manager) (utcnow : Real.Datetime)
  : M (Env F) (dict (datum Real.Datetime)) :=
  worth <- call Real.folio_worth ;;
  env <- get ;;
  let principal := folio_principal_quantity (folio env) in
  cash_worth <- call folio_cash_worth ;;
  percent_cash <- lift_result (py_div (100 * cash_worth) worth) ;;
  let data := [("time"%string, Moment utcnow);
               ("principal"%string, Number principal);
               ("worth"%string, Number worth);
               ("% cash"%string, Number percent_cash)] in
  read_symbols worth (keys (_running_equilibrium self)) data.
End Manager.
End RealTimeEquilibriumRead.

Module PseudoRead := PseudoTimeEquilibriumRead.
Module RealRead := RealTimeEquilibriumRead.

(** The keys of a dictionary after [d[k] = v]. *)
Definition add_key (ks : list string) (k : string) : list string :=
  if existsb (String.eqb k) ks then ks else ks ++ [k].

(** Every key but ["% cash"]. *)
Definition not_percent_cash (k : string) : bool :=
  negb (String.eqb k "% cash").

(** The readings of the toy portfolio: a principal of 500, 400 in cash,
    one share of everything at a unit cost of 1. *)
#[export] Instance toy_pseudo_readings : PseudoRead.Readings Toy := {|
  PseudoRead.folio_principal_quantity := fun _ => 500;
  PseudoRead.folio_cash_worth := fun f => (Val 400, f);
  PseudoRead.market_get_price := fun s _ => toy_read (fun t => fst (fst t)) s;
  PseudoRead.item_quantity := fun _ => 1;
  PseudoRead.item_unit_cost := fun _ => 1;
  PseudoRead.item_worth := fun i _ => toy_read (fun t => fst (fst t)) i
|}.

#[export] Instance toy_real_readings : RealRead.Readings Toy := {|
  RealRead.folio_principal_quantity := fun _ => 500;
  RealRead.folio_cash_worth := fun f => (Val 400, f);
  RealRead.market_get_price := toy_read (fun t => fst (fst t));
  RealRead.item_quantity := fun _ => 1;
  RealRead.item_unit_cost := fun _ => 1
|}.

(** A portfolio that holds a symbol called [cash], and a manager that
    targets it. *)
Definition cash_env : Env Toy :=
  mkEnv (mkToy [("cash"%string, (100, 100, 101))] 1000) [] [].

Definition cash_manager : Manager := __init__ [("cash"%string, 1 # 5)] None.
(** * Properties *)

(** ** Numbers and the progression function *)

Lemma Qltb_true (a b : Q) : Qltb a b = true <-> a < b.
Proof.
  unfold Qltb. rewrite negb_true_iff. split; intro H.
  - destruct (Qlt_le_dec a b) as [Hl|Hl]; [exact Hl|].
    apply Qle_bool_iff in Hl. congruence.
  - destruct (Qle_bool b a) eqn:E; [|reflexivity].
    apply Qle_bool_iff in E. lra.
Qed.

Lemma Qltb_false (a b : Q) : Qltb a b = false <-> b <= a.
Proof.
  unfold Qltb. rewrite negb_false_iff. apply Qle_bool_iff.
Qed.

Lemma Qle_bool_false (a b : Q) : Qle_bool a b = false <-> b < a.
Proof.
  rewrite <- Qltb_true. unfold Qltb. now rewrite negb_true_iff.
Qed.

Lemma py_min_spec (a b : Q) : py_min a b == Qmin a b.
Proof.
  unfold py_min. destruct (Qltb b a) eqn:E.
  - apply Qltb_true in E. symmetry. apply Q.min_r. lra.
  - apply Qltb_false in E. symmetry. apply Q.min_l. exact E.
Qed.

Lemma in_unit_interval_true (x : Q) :
  in_unit_interval x = true <-> 0 < x /\ x <= 1.
Proof.
  unfold in_unit_interval. rewrite andb_true_iff, Qltb_true, Qle_bool_iff.
  tauto.
Qed.

Lemma capped_daily_progression_ok (seconds step cap : Q) :
  0 < step <= 1 -> 0 < cap <= 1 ->
  capped_daily_progression seconds step cap
  = Val (py_min cap (step * (seconds / 86400))).
Proof.
  intros Hs Hc. unfold capped_daily_progression.
  apply in_unit_interval_true in Hs, Hc. now rewrite Hs, Hc.
Qed.

Lemma capped_daily_progression_rejects (seconds step cap : Q) :
  ~ (0 < step <= 1) \/ ~ (0 < cap <= 1) ->
  exists msg, capped_daily_progression seconds step cap
              = Raise (AssertionError msg).
Proof.
  intros H. unfold capped_daily_progression.
  destruct (in_unit_interval step) eqn:Es; cbn; [|eauto].
  destruct (in_unit_interval cap) eqn:Ec; cbn; [|eauto].
  apply in_unit_interval_true in Es, Ec. tauto.
Qed.

Lemma progression_value_min (step cap seconds : Q) :
  progression_value step cap seconds == Qmin cap (step * seconds / 86400).
Proof.
  unfold progression_value. rewrite py_min_spec.
  assert (E : step * (seconds / 86400) == step * seconds / 86400) by (field).
  now rewrite E.
Qed.

Lemma progression_value_mono (step cap s1 s2 : Q) :
  0 < step -> s1 <= s2 ->
  progression_value step cap s1 <= progression_value step cap s2.
Proof.
  intros Hs Hle. rewrite !progression_value_min.
  apply Q.min_le_compat_l.
  assert (E : forall s, step * s / 86400 == (step / 86400) * s) by (intro; field).
  rewrite !E. apply Qmult_le_l; [|exact Hle].
  apply Qlt_shift_div_l; lra.
Qed.

Lemma progression_value_cap (step cap seconds : Q) :
  0 < step -> 86400 * cap / step <= seconds ->
  progression_value step cap seconds == cap.
Proof.
  intros Hs Hbig. rewrite progression_value_min. apply Q.min_l.
  assert (E : cap == step * (86400 * cap / step) / 86400) by (field; lra).
  rewrite E at 1.
  assert (E' : forall s, step * s / 86400 == (step / 86400) * s) by (intro; field).
  rewrite !E'. apply Qmult_le_l; [|exact Hbig].
  apply Qlt_shift_div_l; lra.
Qed.

Lemma progression_value_zero (step cap : Q) :
  0 < cap -> progression_value step cap 0 == 0.
Proof.
  intros Hc. rewrite progression_value_min.
  assert (E : step * 0 / 86400 == 0) by field. rewrite E.
  apply Q.min_r. lra.
Qed.

(** C5. [capped_daily_progression] with [step] and [cap] in (0, 1] returns
    [min(cap, step * seconds / 86400)]: it is [0] at [seconds = 0],
    non-decreasing in [seconds], and equal to [cap] from some point on; with
    [step] or [cap] outside (0, 1] it fails its assertion. *)
Theorem capped_daily_progression_spec (step cap : Q) :
  (0 < step <= 1 -> 0 < cap <= 1 ->
     (forall seconds, exists v,
        capped_daily_progression seconds step cap = Val v /\
        v == Qmin cap (step * seconds / 86400)) /\
     (exists v0, capped_daily_progression 0 step cap = Val v0 /\ v0 == 0) /\
     (forall s1 s2 v1 v2, s1 <= s2 ->
        capped_daily_progression s1 step cap = Val v1 ->
        capped_daily_progression s2 step cap = Val v2 -> v1 <= v2) /\
     (exists bound, forall seconds, bound <= seconds ->
        exists v, capped_daily_progression seconds step cap = Val v /\
                  v == cap)) /\
  (~ (0 < step <= 1) \/ ~ (0 < cap <= 1) ->
     forall seconds, exists msg,
       capped_daily_progression seconds step cap = Raise (AssertionError msg)).
Proof.
  split.
  - intros Hs Hc. repeat split.
    + intros seconds. eexists. split.
      * apply capped_daily_progression_ok; assumption.
      * apply progression_value_min.
    + eexists. split.
      * apply capped_daily_progression_ok; assumption.
      * apply progression_value_zero. tauto.
    + intros s1 s2 v1 v2 Hle H1 H2.
      rewrite capped_daily_progression_ok in H1, H2 by assumption.
      injection H1 as <-. injection H2 as <-.
      apply progression_value_mono; tauto.
    + exists (86400 * cap / step). intros seconds Hbig. eexists. split.
      * apply capped_daily_progression_ok; assumption.
      * apply progression_value_cap; tauto.
  - intros Hbad seconds. now apply capped_daily_progression_rejects.
Qed.

(** ** Dictionaries and sums *)

Lemma fold_left_Qplus (xs : list Q) (a : Q) :
  fold_left Qplus xs a == a + py_sum xs.
Proof.
  unfold py_sum. revert a. induction xs as [|x xs IH]; intros a; cbn.
  - ring.
  - rewrite IH, (IH (0 + x)). ring.
Qed.

Lemma py_sum_cons (x : Q) (xs : list Q) : py_sum (x :: xs) == x + py_sum xs.
Proof.
  unfold py_sum at 1. cbn. rewrite fold_left_Qplus. ring.
Qed.

Lemma values_cons {V} (k : string) (v : V) (d : dict V) :
  values ((k, v) :: d) = v :: values d.
Proof. reflexivity. Qed.

Lemma dict_get_set {V} (d : dict V) (k k' : string) (v : V) :
  dict_get (dict_set d k v) k'
  = if String.eqb k k' then Some v else dict_get d k'.
Proof.
  induction d as [|[k0 v0] d IH]; cbn.
  - destruct (String.eqb k k'); reflexivity.
  - destruct (String.eqb k0 k) eqn:E0; cbn.
    + apply String.eqb_eq in E0. subst k0.
      destruct (String.eqb k k'); reflexivity.
    + destruct (String.eqb k0 k') eqn:E1.
      * apply String.eqb_eq in E1. subst k0. now rewrite String.eqb_sym, E0.
      * exact IH.
Qed.

Lemma dict_get_None {V} (d : dict V) (k : string) :
  dict_get d k = None <-> ~ In k (keys d).
Proof.
  induction d as [|[k0 v0] d IH]; cbn.
  - tauto.
  - destruct (String.eqb k0 k) eqn:E.
    + apply String.eqb_eq in E. split; [discriminate | intros H; exfalso; auto].
    + apply String.eqb_neq in E. rewrite IH. tauto.
Qed.

Lemma keys_dict_set {V} (d : dict V) (k : string) (v : V) :
  keys (dict_set d k v)
  = match dict_get d k with Some _ => keys d | None => keys d ++ [k] end.
Proof.
  induction d as [|[k0 v0] d IH]; cbn; [reflexivity|].
  destruct (String.eqb k0 k) eqn:E; cbn; [reflexivity|].
  unfold keys in IH. rewrite IH. now destruct (dict_get d k).
Qed.

Lemma wf_dict_set {V} (d : dict V) (k : string) (v : V) :
  wf_dict d -> wf_dict (dict_set d k v).
Proof.
  unfold wf_dict. intros Hnd. rewrite keys_dict_set.
  destruct (dict_get d k) eqn:E; [exact Hnd|].
  apply dict_get_None in E.
  apply NoDup_rev in Hnd. rewrite <- (rev_involutive (keys d ++ [k])).
  apply NoDup_rev. rewrite rev_app_distr. cbn. constructor; [|exact Hnd].
  now rewrite <- in_rev.
Qed.

Lemma py_sum_dict_set (d : dict Q) (k : string) (v : Q) :
  py_sum (values (dict_set d k v))
  == py_sum (values d) - getz (dict_get d k) + v.
Proof.
  induction d as [|[k0 v0] d IH]; cbn [dict_set dict_get].
  - rewrite !values_cons, py_sum_cons. unfold py_sum; cbn. ring.
  - destruct (String.eqb k0 k) eqn:E; cbn [getz].
    + rewrite !values_cons, !py_sum_cons. ring.
    + rewrite !values_cons, !py_sum_cons, IH. ring.
Qed.

Lemma py_sum_iadd (d : dict Q) (k : string) (x : Q) :
  py_sum (values (defaultdict_iadd d k x)) == py_sum (values d) + x.
Proof.
  unfold defaultdict_iadd. rewrite py_sum_dict_set.
  destruct (dict_get d k); cbn; ring.
Qed.

Lemma dict_get_iadd (d : dict Q) (k k' : string) (x : Q) :
  dict_get (defaultdict_iadd d k x) k'
  = if String.eqb k k' then Some (getz (dict_get d k) + x) else dict_get d k'.
Proof.
  unfold defaultdict_iadd. rewrite dict_get_set. reflexivity.
Qed.

Lemma iadd_nonempty (d : dict Q) (k : string) (x : Q) :
  defaultdict_iadd d k x <> [].
Proof.
  unfold defaultdict_iadd. destruct d as [|[k0 v0] d]; cbn; [discriminate|].
  destruct (String.eqb k0 k); discriminate.
Qed.

(** ** The equilibrium setter *)

Lemma equilibrium_setter_run (equil_dict : dict Q) (o : Obj) :
  equilibrium_setter equil_dict o =
  let o1 := emit (INFO, MsgSettingEquilibrium equil_dict) o in
  if Qle_bool (py_sum (values equil_dict)) (1 - get_cash_ratio (params (self o)))
  then (Val tt, set_running equil_dict o1)
  else (Raise (AssertionError "Too much total ratio for items"), o1).
Proof.
  unfold equilibrium_setter, bind, _info, modify, get, py_assert; cbn.
  destruct (Qle_bool _ _); reflexivity.
Qed.

(** ** linear_update: the two loops *)

Lemma collect_items_raises (items : dict Q) (c : Q) (raw : dict Q) (tot : Q)
      (e : exn) :
  collect_items items c raw tot = Raise e -> exists msg, e = AssertionError msg.
Proof.
  revert raw tot. induction items as [|[s r] items IH]; intros raw tot; cbn.
  - discriminate.
  - destruct (Qle_bool 0 r); cbn.
    + destruct (Qltb 0 r); apply IH.
    + intros [= <-]. eauto.
Qed.

Lemma collect_items_val (items : dict Q) (c : Q) (raw : dict Q) (tot : Q)
      (raw' : dict Q) (tot' : Q) :
  collect_items items c raw tot = Val (raw', tot') ->
  Forall (fun kv => 0 <= snd kv) items.
Proof.
  revert raw tot. induction items as [|[s r] items IH]; intros raw tot; cbn.
  - constructor.
  - destruct (Qle_bool 0 r) eqn:E; cbn; [|discriminate].
    apply Qle_bool_iff in E.
    destruct (Qltb 0 r); intros H; constructor; eauto.
Qed.

Lemma collect_items_ok (items : dict Q) (c : Q) (raw : dict Q) (tot : Q) :
  Forall (fun kv => 0 <= snd kv) items ->
  exists raw' tot',
    collect_items items c raw tot = Val (raw', tot') /\
    tot' == tot + py_sum (values items) /\
    py_sum (values raw') == py_sum (values raw) + c * py_sum (values items) /\
    (wf_dict raw -> wf_dict raw') /\
    (raw <> [] -> raw' <> []) /\
    (Exists (fun kv => 0 < snd kv) items -> raw' <> []) /\
    (wf_dict items ->
     forall k, dict_get raw' k = item_acc items c k (dict_get raw k)).
Proof.
  intros Hnn. revert raw tot.
  induction Hnn as [|[s r] items Hr _ IH]; intros raw tot.
  - exists raw, tot. cbn. repeat split; try tauto.
    + unfold py_sum; cbn; ring.
    + unfold py_sum; cbn; ring.
    + intros H; inversion H.
  - cbn in Hr. cbn [collect_items].
    assert (E : Qle_bool 0 r = true) by (now apply Qle_bool_iff). rewrite E.
    cbn [negb]. destruct (Qltb 0 r) eqn:Epos.
    + destruct (IH (defaultdict_iadd raw s (r * c)) (tot + r))
        as (raw' & tot' & Hrun & Htot & Hsum & Hwf & Hne & _ & Hget).
      exists raw', tot'. split; [exact Hrun|].
      rewrite values_cons, py_sum_cons. repeat split.
      * rewrite Htot. ring.
      * rewrite Hsum, py_sum_iadd. ring.
      * intros Hw. apply Hwf. now apply wf_dict_set.
      * intros _. apply Hne, iadd_nonempty.
      * intros _. apply Hne, iadd_nonempty.
      * intros Hw k. inversion Hw as [|? ? Hnot Hw']; subst.
        rewrite (Hget Hw' k), dict_get_iadd. unfold item_acc.
        cbn [dict_get]. destruct (String.eqb s k) eqn:Ek.
        -- apply String.eqb_eq in Ek. subst k. rewrite Epos.
           apply dict_get_None in Hnot. now rewrite Hnot.
        -- reflexivity.
    + destruct (IH raw tot)
        as (raw' & tot' & Hrun & Htot & Hsum & Hwf & Hne & Hpos & Hget).
      exists raw', tot'. split; [exact Hrun|].
      apply Qltb_false in Epos. assert (Hz : r == 0) by lra.
      rewrite values_cons, py_sum_cons. repeat split.
      * rewrite Htot, Hz. ring.
      * rewrite Hsum, Hz. ring.
      * exact Hwf.
      * exact Hne.
      * intros Hex. inversion Hex as [? ? Hhd|? ? Htl]; subst.
        -- cbn in Hhd. lra.
        -- now apply Hpos.
      * intros Hw k. inversion Hw as [|? ? Hnot Hw']; subst.
        rewrite (Hget Hw' k). unfold item_acc. cbn [dict_get].
        destruct (String.eqb s k) eqn:Ek; [|reflexivity].
        apply String.eqb_eq in Ek. subst k.
        apply dict_get_None in Hnot. rewrite Hnot.
        assert (Ef : Qltb 0 r = false) by (apply Qltb_false; lra).
        now rewrite Ef.
Qed.

Lemma py_sum_map_snd_cons {A} (p : A * Q) (pairs : list (A * Q)) :
  py_sum (map snd (p :: pairs)) == snd p + py_sum (map snd pairs).
Proof. cbn [map]. apply py_sum_cons. Qed.

Lemma collect_dicts_raises (cash : Q) (pairs : list (dict Q * Q))
      (raw : dict Q) (total : Q) (e : exn) :
  collect_dicts cash pairs raw total = Raise e ->
  exists msg, e = AssertionError msg.
Proof.
  revert raw total. induction pairs as [|[d c] pairs IH]; intros raw total; cbn.
  - discriminate.
  - destruct (collect_items d c raw 0) as [[raw' tot']|e'] eqn:E.
    + destruct (Qle_bool tot' (1 - cash)); cbn.
      * apply IH.
      * intros [= <-]. eauto.
    + intros [= <-]. eapply collect_items_raises, E.
Qed.

Lemma collect_dicts_ok (cash : Q) (pairs : list (dict Q * Q))
      (raw : dict Q) (total : Q) :
  Forall (fun p => source_ok cash (fst p)) pairs ->
  exists raw' total',
    collect_dicts cash pairs raw total = Val (raw', total') /\
    total' == total + py_sum (map snd pairs) /\
    py_sum (values raw') == py_sum (values raw) + weighted_total pairs /\
    (wf_dict raw -> wf_dict raw') /\
    (raw <> [] -> raw' <> []) /\
    (Exists (fun p => Exists (fun kv => 0 < snd kv) (fst p)) pairs ->
     raw' <> []) /\
    (Forall (fun p => wf_dict (fst p)) pairs ->
     forall k, dict_get raw' k
               = fold_left (fun o p => item_acc (fst p) (snd p) k o) pairs
                           (dict_get raw k)).
Proof.
  intros Hok. revert raw total.
  induction Hok as [|[d c] pairs [Hnn Hle] _ IH]; intros raw total.
  - exists raw, total. cbn. repeat split; try tauto.
    + unfold py_sum; cbn; ring.
    + ring.
    + intros H; inversion H.
  - cbn [fst] in Hnn, Hle. cbn [collect_dicts].
    destruct (collect_items_ok d c raw 0 Hnn)
      as (raw1 & tot1 & Hrun1 & Htot1 & Hsum1 & Hwf1 & Hne1 & Hpos1 & Hget1).
    rewrite Hrun1.
    assert (E : Qle_bool tot1 (1 - cash) = true).
    { apply Qle_bool_iff. rewrite Htot1. lra. }
    rewrite E. cbn [negb].
    destruct (IH raw1 (total + c))
      as (raw' & total' & Hrun & Htot & Hsum & Hwf & Hne & Hpos & Hget).
    exists raw', total'. split; [exact Hrun|].
    rewrite py_sum_map_snd_cons. cbn [fst snd weighted_total fold_right].
    repeat split.
    + rewrite Htot. ring.
    + rewrite Hsum, Hsum1. unfold weighted_total. ring.
    + tauto.
    + tauto.
    + intros Hex. inversion Hex as [? ? Hhd|? ? Htl]; subst; cbn in *; tauto.
    + intros Hw k. inversion Hw as [|? ? Hwd Hw']; subst. cbn [fst] in Hwd.
      rewrite (Hget Hw' k). cbn [fold_left fst snd].
      now rewrite (Hget1 Hwd k).
Qed.




(** ** linear_update: normalisation *)

Lemma normalize_nil (total : Q) : normalize [] total = Val [].
Proof. reflexivity. Qed.

Lemma normalize_ok (raw : dict Q) (total : Q) :
  ~ total == 0 -> normalize raw total = Val (scale total raw).
Proof.
  intros Hnz. induction raw as [|[k v] raw IH]; cbn; [reflexivity|].
  unfold py_div. destruct (Qeq_bool total 0) eqn:E.
  - apply Qeq_bool_eq in E. contradiction.
  - now rewrite IH.
Qed.

Lemma normalize_zero (raw : dict Q) (total : Q) :
  total == 0 -> raw <> [] -> normalize raw total = Raise ZeroDivisionError.
Proof.
  intros Hz Hne. destruct raw as [|[k v] raw]; [contradiction|]. cbn.
  unfold py_div. now rewrite (Qeq_eq_bool _ _ Hz).
Qed.

Lemma keys_scale (total : Q) (d : dict Q) : keys (scale total d) = keys d.
Proof.
  unfold keys, scale. rewrite map_map. apply map_ext. now intros [k v].
Qed.



(** ** linear_update as a whole *)



Lemma linear_update_run (equil_dictl : list (dict Q)) (coefficients : list Q)
      (o : Obj) :
  linear_update equil_dictl coefficients o =
  match collect_dicts (get_cash_ratio (params (self o)))
                      (combine equil_dictl coefficients) [] 0 with
  | Raise e => (Raise e, o)
  | Val acc =>
      match normalize (fst acc) (snd acc) with
      | Raise e => (Raise e, o)
      | Val new_equilibrium => equilibrium_setter new_equilibrium o
      end
  end.
Proof.
  unfold linear_update, bind, get, lift_result.
  destruct (collect_dicts _ _ _ _) as [acc|e]; [|reflexivity].
  destruct (normalize _ _); reflexivity.
Qed.

Lemma collect_dicts_val (cash : Q) (pairs : list (dict Q * Q))
      (raw : dict Q) (total : Q) (acc : dict Q * Q) :
  collect_dicts cash pairs raw total = Val acc ->
  Forall (fun p => source_ok cash (fst p)) pairs.
Proof.
  revert raw total. induction pairs as [|[d c] pairs IH]; intros raw total.
  - constructor.
  - cbn [collect_dicts].
    destruct (collect_items d c raw 0) as [[raw1 tot1]|e] eqn:E; [|discriminate].
    pose proof (collect_items_val _ _ _ _ _ _ E) as Hnn.
    destruct (collect_items_ok d c raw 0 Hnn) as (r2 & t2 & Hrun & Htot & _).
    rewrite E in Hrun. injection Hrun as <- <-.
    destruct (Qle_bool tot1 (1 - cash)) eqn:Ele; cbn [negb]; [|discriminate].
    intros Hrest. constructor; [|eapply IH, Hrest].
    split; [exact Hnn|]. cbn [fst]. apply Qle_bool_iff in Ele. lra.
Qed.



(** Without a strictly positive ratio in any source there is nothing to
    divide: the call goes through and installs the empty equilibrium. *)
Lemma linear_update_nothing_positive (o : Obj)
      (equil_dictl : list (dict Q)) (coefficients : list Q) :
  Forall (fun d => Forall (fun kv => snd kv == 0) d) equil_dictl ->
  get_cash_ratio (params (self o)) <= 1 ->
  exists o',
    linear_update equil_dictl coefficients o = (Val tt, o') /\
    _running_equilibrium (self o') = [].
Proof.
  intros Hall Hcash. rewrite linear_update_run.
  set (cash := get_cash_ratio (params (self o))) in *.
  assert (Hrun : forall pairs total,
             Forall (fun p => Forall (fun kv => snd kv == 0) (fst p)) pairs ->
             exists total', collect_dicts cash pairs [] total = Val ([], total')).
  { assert (Hitems : forall d c, Forall (fun kv => snd kv == 0) d ->
              collect_items d c [] 0 = Val ([], 0)).
    { intros d c Hd. induction Hd as [|[s r] d Hr _ IH]; [reflexivity|].
      cbn in Hr. cbn [collect_items].
      assert (E1 : Qle_bool 0 r = true) by (apply Qle_bool_iff; lra).
      assert (E2 : Qltb 0 r = false) by (apply Qltb_false; lra).
      now rewrite E1, E2. }
    induction pairs as [|[d c] pairs IH]; intros total Hp.
    - eexists. reflexivity.
    - inversion Hp as [|? ? Hd Hp']; subst. cbn [collect_dicts].
      rewrite (Hitems d c Hd).
      assert (E : Qle_bool 0 (1 - cash) = true) by (apply Qle_bool_iff; lra).
      rewrite E. apply IH, Hp'. }
  destruct (Hrun (combine equil_dictl coefficients) 0) as [total' ->].
  - clear Hrun. revert coefficients.
    induction Hall as [|d dl Hd _ IH]; intros [|c cl]; cbn; constructor; auto.
  - cbn [fst snd]. rewrite normalize_nil, equilibrium_setter_run. cbv zeta.
    fold cash.
    assert (E : Qle_bool (py_sum (values [])) (1 - cash) = true).
    { apply Qle_bool_iff. unfold py_sum; cbn. lra. }
    rewrite E. eexists. split; reflexivity.
Qed.

(** ** The tick loop: what leaves the order list alone *)

Lemma quiet_ret {F A} (a : A) : quiet (F:=F) (ret a).
Proof. intros env r env' [= <- <-]. reflexivity. Qed.

Lemma quiet_raise {F A} (e : exn) : quiet (F:=F) (A:=A) (raise e).
Proof. intros env r env' [= <- <-]. reflexivity. Qed.

Lemma quiet_lift_result {F A} (x : result A) : quiet (F:=F) (lift_result x).
Proof. intros env r env' [= <- <-]. reflexivity. Qed.

Lemma quiet_get {F} : quiet (F:=F) get.
Proof. intros env r env' [= <- <-]. reflexivity. Qed.

Lemma quiet_assert {F} (c : bool) (msg : string) :
  quiet (F:=F) (py_assert c msg).
Proof. destruct c; [apply quiet_ret | apply quiet_raise]. Qed.

Lemma quiet_call {F A} (op : F -> result A * F) : quiet (call op).
Proof.
  intros env r env'. unfold call. destruct (op (folio env)).
  intros [= <- <-]. reflexivity.
Qed.

Lemma quiet_info {F} (msg : message) : quiet (F:=F) (_info msg).
Proof. intros env r env' [= <- <-]. reflexivity. Qed.

Lemma quiet_warn {F} (msg : message) : quiet (F:=F) (_warn msg).
Proof. intros env r env' [= <- <-]. reflexivity. Qed.

Lemma quiet_bind {F A B} (m : M (Env F) A) (k : A -> M (Env F) B) :
  quiet m -> (forall a, quiet (k a)) -> quiet (bind m k).
Proof.
  intros Hm Hk env r env'. unfold bind.
  destruct (m env) as [[a|e] env1] eqn:E.
  - intros H. rewrite (Hk a _ _ _ H). eapply Hm, E.
  - intros [= <- <-]. eapply Hm, E.
Qed.

Lemma quiet_if {F A} (c : bool) (m1 m2 : M (Env F) A) :
  quiet m1 -> quiet m2 -> quiet (if c then m1 else m2).
Proof. now destruct c. Qed.

Create HintDb quiet.
#[local] Hint Resolve quiet_ret quiet_raise quiet_lift_result quiet_get
  quiet_assert quiet_call quiet_info quiet_warn quiet_if : quiet.

Ltac quiet_steps :=
  repeat first [ apply quiet_bind; [|intros ?] | apply quiet_if
               | solve [auto with quiet] ].

(** Inversion of the monad's steps. *)
Lemma bind_val_inv {S A B} (m : M S A) (k : A -> M S B) (s s' : S) (b : B) :
  bind m k s = (Val b, s') ->
  exists a s1, m s = (Val a, s1) /\ k a s1 = (Val b, s').
Proof.
  unfold bind. destruct (m s) as [[a|e] s1]; [eauto | discriminate].
Qed.

Lemma lift_result_inv {S A} (x : result A) (s s' : S) (r : result A) :
  lift_result x s = (r, s') -> x = r /\ s = s'.
Proof. now intros [= <- <-]. Qed.

Lemma assert_inv {S} (c : bool) (msg : string) (s s' : S) (u : unit) :
  py_assert c msg s = (Val u, s') -> c = true /\ s = s'.
Proof. destruct c; cbn; [now intros [= <-] | discriminate]. Qed.

Lemma call_inv {F A} (op : F -> result A * F) (env env' : Env F)
      (r : result A) :
  call op env = (r, env') ->
  op (folio env) = (r, folio env') /\
  console env' = console env /\ submitted env' = submitted env.
Proof.
  unfold call. destruct (op (folio env)) as [r0 f0]. now intros [= <- <-].
Qed.

(** The guard turns every outcome into a returned value. *)
Lemma guard_returns {F A} (fallback : A) (tb : bool) (m : M (Env F) A)
      (env : Env F) :
  exists v env', guard fallback tb m env = (Val v, env').
Proof.
  unfold guard. destruct (m env) as [[a|e] env1]; eauto.
Qed.

Lemma guard_raise {F A} (fallback : A) (m : M (Env F) A)
      (env env' : Env F) (e : exn) :
  m env = (Raise e, env') ->
  guard fallback true m env
  = (Val fallback, emit (TRACEBACK, MsgException e) env').
Proof. unfold guard. now intros ->. Qed.

(** A loop whose body always returns runs to its end. *)
Lemma for_each_total {S A} (body : A -> M S unit) (xs : list A) :
  (forall x s, exists s', body x s = (Val tt, s')) ->
  forall s, exists s', for_each body xs s = (Val tt, s').
Proof.
  intros Hbody. induction xs as [|x xs IH]; intros s; cbn.
  - eexists. reflexivity.
  - unfold bind. destruct (Hbody x s) as [s1 ->]. apply IH.
Qed.

Lemma for_each_app {S A} (body : A -> M S unit) (xs ys : list A) (s s1 : S) :
  for_each body xs s = (Val tt, s1) ->
  for_each body (xs ++ ys) s = for_each body ys s1.
Proof.
  revert s. induction xs as [|x xs IH]; intros s; cbn.
  - now intros [= <-].
  - unfold bind. destruct (body x s) as [[[]|e] s2]; [apply IH | discriminate].
Qed.

Lemma for_each_raise {S A} (body : A -> M S unit) (x : A) (xs : list A)
      (s s' : S) (e : exn) :
  body x s = (Raise e, s') -> for_each body (x :: xs) s = (Raise e, s').
Proof. cbn. unfold bind. now intros ->. Qed.

(** ** PseudoTimeEquilibrium: one loop iteration *)

Section PseudoFacts.
Import PseudoTimeEquilibrium.
Context {F : Type} {P : Portfolio F}.

Lemma pseudo_observe_quiet (self : Manager) (gap : Q) (time : Time)
      (s : string) (r : Q) :
  quiet (observe self gap time s r).
Proof. unfold observe. quiet_steps. Qed.

(** What a successful [observe] has read. *)
Lemma pseudo_observe_inv (self : Manager) (gap : Q) (time : Time)
      (s : string) (r : Q) (env env1 : Env F) (l : locals) :
  observe self gap time s r env = (Val l, env1) ->
  exists (W : Q) (f : F),
    folio_worth time f = (Val W, folio env1) /\
    _target_worth l = r * W /\
    get_progression_func (params self) gap = Val (_step l) /\
    _step l <= 1 /\
    submitted env1 = submitted env.
Proof.
  intros H. pose proof (pseudo_observe_quiet _ _ _ _ _ _ _ _ H) as Hq.
  unfold observe in H.
  apply bind_val_inv in H as (item & e1 & _ & H).
  apply bind_val_inv in H as (b & e2 & _ & H).
  apply bind_val_inv in H as (a & e3 & _ & H).
  apply bind_val_inv in H as (W & e4 & HW & H).
  apply bind_val_inv in H as (st & e5 & Hst & H).
  apply bind_val_inv in H as ([] & e6 & Hle & H).
  injection H as <- <-. cbn.
  apply lift_result_inv in Hst as [Hst <-].
  apply assert_inv in Hle as [Hle <-].
  apply call_inv in HW as (HW & _ & _).
  exists W, (folio e3). repeat split; try assumption.
  now apply Qle_bool_iff.
Qed.

Lemma pseudo_market_buy_run (s : string) (a : Q) (time : Time) (env : Env F) :
  exists (r : result unit) (env' : Env F),
    (market_buy s a time ;;; ret tt) env = (r, env') /\
    submitted env' = submitted env ++ [mkOrder Buy s a] /\
    console env' = console env /\
    (r, folio env')
    = (let (ri, f') := folio_market_buy s a time (folio env) in
       (match ri with Val _ => Val tt | Raise e => Raise e end, f')).
Proof.
  unfold market_buy, bind, record_order, modify, call, ret. cbn.
  destruct (folio_market_buy s a time (folio env)) as [[i|e] f'];
    eexists _, _; repeat split.
Qed.

Lemma pseudo_market_sell_run (s : string) (a : Q) (time : Time) (env : Env F) :
  exists (r : result unit) (env' : Env F),
    (market_sell s a time ;;; ret tt) env = (r, env') /\
    submitted env' = submitted env ++ [mkOrder Sell s a] /\
    console env' = console env /\
    (r, folio env')
    = (let (ri, f') := folio_market_sell s a time (folio env) in
       (match ri with Val _ => Val tt | Raise e => Raise e end, f')).
Proof.
  unfold market_sell, bind, record_order, modify, call, ret. cbn.
  destruct (folio_market_sell s a time (folio env)) as [[i|e] f'];
    eexists _, _; repeat split.
Qed.

Lemma pseudo_trade_buy (time : Time) (s : string) (l : locals) :
  _ask_worth l < _target_worth l ->
  trade time s l
  = (market_buy s ((_target_worth l - _ask_worth l) * _step l) time ;;;
     ret tt).
Proof.
  intros H. apply Qltb_true in H. unfold trade. now rewrite H.
Qed.

Lemma pseudo_trade_sell (time : Time) (s : string) (l : locals) :
  ~ _ask_worth l < _target_worth l ->
  _item_exists l = true -> _target_worth l < _bid_worth l ->
  trade time s l
  = (market_sell s ((_bid_worth l - _target_worth l) * _step l) time ;;;
     ret tt).
Proof.
  intros Hn Hex H. apply Qltb_true in H. unfold trade.
  destruct (Qltb (_ask_worth l) (_target_worth l)) eqn:E.
  - apply Qltb_true in E. contradiction.
  - now rewrite Hex, H.
Qed.

Lemma pseudo_trade_hold (time : Time) (s : string) (l : locals) :
  ~ _ask_worth l < _target_worth l ->
  ~ (_item_exists l = true /\ _target_worth l < _bid_worth l) ->
  trade time s l = ret tt.
Proof.
  intros Hn Hs. unfold trade.
  destruct (Qltb (_ask_worth l) (_target_worth l)) eqn:E.
  - apply Qltb_true in E. contradiction.
  - destruct (_item_exists l); [|reflexivity]. cbn.
    destruct (Qltb (_target_worth l) (_bid_worth l)) eqn:E'; [|reflexivity].
    apply Qltb_true in E'. tauto.
Qed.

Lemma pseudo_loop_body_run (self : Manager) (gap : Q) (time : Time)
      (entry : string * Q) (env env1 : Env F) (l : locals) :
  observe self gap time (fst entry) (snd entry) env = (Val l, env1) ->
  loop_body self gap time entry env = trade time (fst entry) l env1.
Proof. unfold loop_body, bind. now intros ->. Qed.

Lemma pseudo_tick_write_run (self : Manager) (time : Time) (env : Env F) :
  tick_write self time env =
  match folio_tick time (folio env) with
  | (Val gap, f1) =>
      match for_each (loop_body self gap time) (_running_equilibrium self)
                     (mkEnv f1 (console env) (submitted env)) with
      | (Val _, env') => (Val PyNone, env')
      | (Raise e, env') => (Raise e, env')
      end
  | (Raise e, f1) => (Raise e, mkEnv f1 (console env) (submitted env))
  end.
Proof.
  unfold tick_write, bind, call, ret.
  destruct (folio_tick time (folio env)) as [[gap|e] f1]; [|reflexivity].
  destruct (for_each _ _ _) as [[u|e] env']; reflexivity.
Qed.
End PseudoFacts.

(** ** RealTimeEquilibrium: the guarded subroutine *)

Section RealFacts.
Import RealTimeEquilibrium.
Context {F : Type} {P : Portfolio F}.

Lemma real_observe_quiet (self : Manager) (gap W : Q)
      (oov : string -> result Q) (s : string) (r : Q) :
  quiet (observe self gap W oov s r).
Proof. unfold observe. quiet_steps. Qed.

(** What a successful [observe] has computed. *)
Lemma real_observe_inv (self : Manager) (gap W : Q)
      (oov : string -> result Q) (s : string) (r : Q)
      (env env1 : Env F) (l : locals) :
  observe self gap W oov s r env = (Val l, env1) ->
  target_worth l = r * W /\
  oov s = Val (ord_worth l) /\
  cur_worth l = ava_worth l + ord_worth l /\
  (exists bid ask, bid_worth l = bid + ord_worth l /\
                   ask_worth l = ask + ord_worth l) /\
  ~ W == 0 /\
  get_progression_func (params self) gap = Val (step l) /\
  step l <= 1 /\
  submitted env1 = submitted env.
Proof.
  intros H. pose proof (real_observe_quiet _ _ _ _ _ _ _ _ _ H) as Hq.
  unfold observe in H.
  apply bind_val_inv in H as (item & e1 & _ & H).
  apply bind_val_inv in H as (ava & e2 & _ & H).
  apply bind_val_inv in H as (b & e3 & _ & H).
  apply bind_val_inv in H as (a & e4 & _ & H).
  apply bind_val_inv in H as (ord & e5 & Hord & H).
  apply bind_val_inv in H as (cr & e6 & Hcr & H).
  apply bind_val_inv in H as (st & e7 & Hst & H).
  apply bind_val_inv in H as ([] & e8 & Hle & H).
  apply bind_val_inv in H as ([] & e9 & _ & H).
  apply bind_val_inv in H as ([] & e10 & _ & H).
  injection H as <- <-. cbn.
  apply lift_result_inv in Hord as [Hord _].
  apply lift_result_inv in Hcr as [Hcr _].
  apply lift_result_inv in Hst as [Hst _].
  apply assert_inv in Hle as [Hle _].
  repeat split; try assumption; try reflexivity.
  - eauto.
  - unfold py_div in Hcr. destruct (Qeq_bool W 0) eqn:E; [discriminate|].
    now apply Qeq_bool_neq.
  - now apply Qle_bool_iff.
Qed.

Lemma real_decide_buy (s : string) (l : locals) :
  ask_worth l < target_worth l ->
  decide s l
  = ret (mkTentative (Some ((target_worth l - cur_worth l) * step l))
                     (Some "market buy"%string) (Some market_buy)).
Proof. intros H. apply Qltb_true in H. unfold decide. now rewrite H. Qed.

Lemma real_decide_sell (s : string) (l : locals) :
  ~ ask_worth l < target_worth l ->
  item_exists l = true -> target_worth l < bid_worth l ->
  decide s l
  = ret (mkTentative (Some ((cur_worth l - target_worth l) * step l))
                     (Some "market sell"%string) (Some market_sell)).
Proof.
  intros Hn Hex H. apply Qltb_true in H. unfold decide.
  destruct (Qltb (ask_worth l) (target_worth l)) eqn:E.
  - apply Qltb_true in E. contradiction.
  - now rewrite Hex, H.
Qed.

Lemma real_decide_hold (s : string) (l : locals) :
  ~ ask_worth l < target_worth l ->
  ~ (item_exists l = true /\ target_worth l < bid_worth l) ->
  decide s l = (_info (MsgStayingPut s) ;;; ret (mkTentative None None None)).
Proof.
  intros Hn Hs. unfold decide.
  destruct (Qltb (ask_worth l) (target_worth l)) eqn:E.
  - apply Qltb_true in E. contradiction.
  - destruct (item_exists l); [|reflexivity]. cbn.
    destruct (Qltb (target_worth l) (bid_worth l)) eqn:E'; [|reflexivity].
    apply Qltb_true in E'. tauto.
Qed.

Lemma real_subroutine_run (self : Manager) (execute : bool) (gap W : Q)
      (oov : string -> result Q) (s : string) (r : Q)
      (env env1 : Env F) (l : locals) :
  observe self gap W oov s r env = (Val l, env1) ->
  subroutine self execute gap W oov s r env
  = (t <- decide s l ;; make_market_order execute s t) env1.
Proof. unfold subroutine, bind. now intros ->. Qed.

(** A dry run only prints the tentative order. *)
Lemma real_order_fake (s act : string) (a : Q)
      (f : string -> Q -> M (Env F) Info) (env : Env F) :
  make_market_order false s (mkTentative (Some a) (Some act) (Some f)) env
  = (Val PyNone,
     emit (INFO, MsgFake act s a (folio_cash_name (folio env))) env).
Proof. reflexivity. Qed.

(** With [execute] the tentative buy reaches [folio.market_buy]. *)
Lemma real_order_buy (s act : string) (a : Q) (env : Env F) :
  exists (r : result pyval) (env' : Env F),
    make_market_order true s
      (mkTentative (Some a) (Some act) (Some market_buy)) env = (r, env') /\
    submitted env' = submitted env ++ [mkOrder Buy s a] /\
    (r, folio env')
    = (let (ri, f') := folio_market_buy s a (folio env) in
       (match ri with Val _ => Val PyNone | Raise e => Raise e end, f')).
Proof.
  unfold make_market_order, read_local, market_buy, bind, get, ret, _warn,
    modify, record_order, call. cbn.
  destruct (folio_market_buy s a (folio env)) as [[i|e] f'];
    eexists _, _; repeat split.
Qed.

Lemma real_order_sell (s act : string) (a : Q) (env : Env F) :
  exists (r : result pyval) (env' : Env F),
    make_market_order true s
      (mkTentative (Some a) (Some act) (Some market_sell)) env = (r, env') /\
    submitted env' = submitted env ++ [mkOrder Sell s a] /\
    (r, folio env')
    = (let (ri, f') := folio_market_sell s a (folio env) in
       (match ri with Val _ => Val PyNone | Raise e => Raise e end, f')).
Proof.
  unfold make_market_order, read_local, market_sell, bind, get, ret, _warn,
    modify, record_order, call. cbn.
  destruct (folio_market_sell s a (folio env)) as [[i|e] f'];
    eexists _, _; repeat split.
Qed.

(** With nothing assigned, building the message already fails. *)
Lemma real_order_unbound (execute : bool) (s : string) (env : Env F) :
  make_market_order execute s (mkTentative None None None) env
  = (Raise (UnboundLocalError "action"), env).
Proof. reflexivity. Qed.

Lemma real_subroutine_hold (self : Manager) (execute : bool) (gap W : Q)
      (oov : string -> result Q) (s : string) (r : Q)
      (env env1 : Env F) (l : locals) :
  observe self gap W oov s r env = (Val l, env1) ->
  ~ ask_worth l < target_worth l ->
  ~ (item_exists l = true /\ target_worth l < bid_worth l) ->
  subroutine self execute gap W oov s r env
  = (Raise (UnboundLocalError "action"),
     emit (INFO, MsgStayingPut s) env1).
Proof.
  intros Hobs Hn Hs.
  rewrite (real_subroutine_run _ _ _ _ _ _ _ _ _ _ Hobs).
  now rewrite (real_decide_hold s l Hn Hs).
Qed.

(** When the subroutine raises, no order call has returned: either none was
    made, or the one that was made is what raised. *)
Lemma real_subroutine_raise (self : Manager) (execute : bool) (gap W : Q)
      (oov : string -> result Q) (s : string) (r : Q)
      (env env' : Env F) (e : exn) :
  subroutine self execute gap W oov s r env = (Raise e, env') ->
  submitted env' = submitted env \/
  (exists amount f,
      submitted env' = submitted env ++ [mkOrder Buy s amount] /\
      folio_market_buy s amount f = (Raise e, folio env')) \/
  (exists amount f,
      submitted env' = submitted env ++ [mkOrder Sell s amount] /\
      folio_market_sell s amount f = (Raise e, folio env')).
Proof.
  intros H.
  destruct (observe self gap W oov s r env) as [[l|e0] env1] eqn:Hobs.
  - pose proof (real_observe_quiet _ _ _ _ _ _ _ _ _ Hobs) as Hsub.
    rewrite (real_subroutine_run _ _ _ _ _ _ _ _ _ _ Hobs) in H.
    destruct (Qlt_le_dec (ask_worth l) (target_worth l)) as [Hbuy|Hnb].
    + rewrite (real_decide_buy s l Hbuy) in H.
      change ((t <- ret ?x ;; make_market_order execute s t) env1)
        with (make_market_order execute s x env1) in H.
      destruct execute; [|rewrite real_order_fake in H; discriminate].
      match type of H with
      | make_market_order true s (mkTentative (Some ?a) (Some ?act) _) _ = _ =>
          destruct (real_order_buy s act a env1) as (res & env2 & Hrun & Hs2 & Hf)
      end.
      rewrite Hrun in H. injection H as -> ->.
      right; left. eexists _, (folio env1). split; [now rewrite Hs2, Hsub|].
      destruct (folio_market_buy s _ (folio env1)) as [[i|e1] f'];
        [discriminate | now injection Hf as <- <-].
    + destruct (item_exists l) eqn:Hex.
      * destruct (Qlt_le_dec (target_worth l) (bid_worth l)) as [Hsell|Hns].
        -- rewrite (real_decide_sell s l ltac:(lra) Hex Hsell) in H.
           change ((t <- ret ?x ;; make_market_order execute s t) env1)
             with (make_market_order execute s x env1) in H.
           destruct execute; [|rewrite real_order_fake in H; discriminate].
           match type of H with
           | make_market_order true s (mkTentative (Some ?a) (Some ?act) _) _
             = _ =>
               destruct (real_order_sell s act a env1)
                 as (res & env2 & Hrun & Hs2 & Hf)
           end.
           rewrite Hrun in H. injection H as -> ->.
           right; right. eexists _, (folio env1).
           split; [now rewrite Hs2, Hsub|].
           destruct (folio_market_sell s _ (folio env1)) as [[i|e1] f'];
             [discriminate | now injection Hf as <- <-].
        -- rewrite (real_decide_hold s l) in H
             by first [lra | intros [? ?]; lra].
           injection H as <- <-. left. exact Hsub.
      * rewrite (real_decide_hold s l) in H
          by first [lra | intros [? ?]; congruence].
        injection H as <- <-. left. exact Hsub.
  - unfold subroutine, bind in H. rewrite Hobs in H. injection H as <- <-.
    left. eapply real_observe_quiet, Hobs.
Qed.

Lemma real_tick_write_run (self : Manager) (execute : bool) (env : Env F)
      (gap W : Q) (oov : string -> result Q) (f1 f2 f3 : F) :
  folio_tick execute (folio env) = (Val gap, f1) ->
  folio_worth f1 = (Val W, f2) ->
  folio_open_order_values f2 = (Val oov, f3) ->
  exists env',
    tick_write self execute env = (Val (PyFloat gap), env').
Proof.
  intros Ht Hw Ho.
  unfold tick_write, loop_body, bind, get, call, _info, modify. cbn.
  rewrite Ht. cbn.
  rewrite Hw. cbn. rewrite Ho.
  match goal with
  | |- context [for_each ?body ?xs ?st] =>
      assert (Hb : forall x s0, exists s', body x s0 = (Val tt, s'));
      [ | destruct (for_each_total body xs Hb st) as [s' ->]; eexists; reflexivity ]
  end.
  intros [sym ratio] s0. unfold bind.
  destruct (guard_returns (PyInt 0) true
              (subroutine self execute gap W oov sym ratio) s0)
    as (v & s1 & Hg).
  unfold guarded_subroutine. cbn [fst snd]. rewrite Hg.
  eexists. reflexivity.
Qed.
End RealFacts.

(** ** Statements about the manager object *)

Lemma capped_daily_progression_spec_witness :
  (exists v, capped_daily_progression 43200 default_step default_cap = Val v /\
             v == Qmin default_cap (default_step * 43200 / 86400)) /\
  (exists msg, capped_daily_progression 43200 2 default_cap
               = Raise (AssertionError msg)).
Proof.
  split.
  - assert (Hs : 0 < default_step <= 1) by (unfold default_step; lra).
    assert (Hc : 0 < default_cap <= 1) by (unfold default_cap; lra).
    exact (proj1 (proj1 (capped_daily_progression_spec default_step default_cap)
                        Hs Hc) 43200).
  - assert (Hbad : ~ (0 < 2 <= 1) \/ ~ (0 < default_cap <= 1)) by (left; lra).
    exact (proj2 (capped_daily_progression_spec 2 default_cap) Hbad 43200).
Defined.

(** The setter succeeds exactly when the total ratio leaves the cash share
    free; the sign of the single ratios plays no part. When it fails, the
    running equilibrium stays. *)
Lemma equilibrium_setter_succeeds_iff (equil_dict : dict Q) (o : Obj) :
  (py_sum (values equil_dict) <= 1 - get_cash_ratio (params (self o)) ->
   exists o', equilibrium_setter equil_dict o = (Val tt, o') /\
              _running_equilibrium (self o') = equil_dict) /\
  (~ py_sum (values equil_dict) <= 1 - get_cash_ratio (params (self o)) ->
   exists msg o', equilibrium_setter equil_dict o
                  = (Raise (AssertionError msg), o') /\
                  self o' = self o).
Proof.
  rewrite equilibrium_setter_run. cbv zeta.
  destruct (Qle_bool _ _) eqn:E.
  - apply Qle_bool_iff in E. split; [|tauto]. intros _. eauto.
  - split.
    + intros H. apply Qle_bool_iff in H. congruence.
    + intros _. eauto.
Qed.

(** C3. The setter fails only on the total: an equilibrium holding the
    ratio [-1/2] passes it and becomes the running equilibrium. *)
Theorem equilibrium_setter_accepts_negative_ratio :
  Exists (fun kv => snd kv < 0) negative_equilibrium /\
  exists o',
    equilibrium_setter negative_equilibrium (fresh_obj []) = (Val tt, o') /\
    _running_equilibrium (self o') = negative_equilibrium.
Proof.
  split.
  - constructor. cbn. lra.
  - eexists. split; reflexivity.
Qed.




(** ** Persistence *)

(** C7 (as amended). With a serializer that reads back what it wrote,
    [load_pickle] after [dump_pickle] returns a manager with the running
    equilibrium and the params of the dumped one; its initial equilibrium
    is the dumped manager's running equilibrium. *)
Theorem pickle_round_trip (bytes : Type) (pickle_dump : pkl_dict -> bytes)
        (pickle_load : bytes -> result pkl_dict)
        (self : Manager) (pkl_path : string) (fs : filesystem bytes) :
  (forall p, pickle_load (pickle_dump p) = Val p) ->
  exists fs' loaded,
    dump_pickle bytes pickle_dump self pkl_path fs = (Val tt, fs') /\
    load_pickle bytes pickle_load pkl_path fs' = (Val loaded, fs') /\
    _running_equilibrium loaded = _running_equilibrium self /\
    params loaded = params self /\
    _initial_equilibrium loaded = _running_equilibrium self.
Proof.
  intros Hrt. eexists _, _. split; [reflexivity|].
  unfold load_pickle, dump_pickle, modify, bind, get, lift_result, ret.
  cbn [fst snd]. rewrite dict_get_set, String.eqb_refl, Hrt.
  repeat split.
Qed.

Lemma pickle_round_trip_witness :
  exists fs' loaded,
    dump_pickle pkl_dict id_dump drifted_manager "m.pkl" [] = (Val tt, fs') /\
    load_pickle pkl_dict id_load "m.pkl" fs' = (Val loaded, fs') /\
    _running_equilibrium loaded = _running_equilibrium drifted_manager /\
    params loaded = params drifted_manager /\
    _initial_equilibrium loaded = _running_equilibrium drifted_manager.
Proof.
  apply pickle_round_trip. intros p. reflexivity.
Defined.

(** C7, as stated, fails: the initial equilibrium [{A: 1/2}] of the dumped
    manager comes back as [{A: 3/10}], its running equilibrium. *)
Lemma pickle_forgets_initial_equilibrium :
  _initial_equilibrium drifted_manager = [("A"%string, 1 # 2)] /\
  exists fs' loaded,
    dump_pickle pkl_dict id_dump drifted_manager "m.pkl" [] = (Val tt, fs') /\
    load_pickle pkl_dict id_load "m.pkl" fs' = (Val loaded, fs') /\
    _initial_equilibrium loaded = [("A"%string, 3 # 10)] /\
    _initial_equilibrium loaded <> _initial_equilibrium drifted_manager /\
    ~ (3 # 10) == (1 # 2).
Proof.
  split; [reflexivity|]. eexists _, _. repeat split.
  - cbn. discriminate.
  - intros H. vm_compute in H. discriminate.
Qed.

(** ** Statements about the tick *)

Section Ticks.
Context {F1 : Type} {P1 : Pseudo.Portfolio F1}.
Context {F2 : Type} {P2 : Real.Portfolio F2}.

(** C1. Once a symbol's worths have been read and the step size asserted:
    - simulated time: [targetWorth = ratio * worth]; when it exceeds the
      ask worth the iteration is a market buy of
      [(targetWorth - askWorth) * step]; otherwise, when the item exists
      and the target is under the bid worth, a market sell of
      [(bidWorth - targetWorth) * step];
    - real time, with current, bid and ask worths raised by the open-order
      value: the same tests lead to a tentative market buy of
      [(targetWorth - currentWorth) * step], respectively a market sell of
      [(currentWorth - targetWorth) * step], which is handed to the
      portfolio when [execute] is set and only printed otherwise. *)
Theorem rebalance_decision :
  (forall (self : Manager) (gap : Q) (time : Pseudo.Time) (s : string)
          (r : Q) (env env1 : Env F1) (l : Pseudo.locals),
      Pseudo.observe self gap time s r env = (Val l, env1) ->
      (exists W f,
          Pseudo.folio_worth time f = (Val W, folio env1) /\
          Pseudo._target_worth l = r * W /\
          get_progression_func (params self) gap = Val (Pseudo._step l)) /\
      (Pseudo._ask_worth l < Pseudo._target_worth l ->
       let amount :=
         (Pseudo._target_worth l - Pseudo._ask_worth l) * Pseudo._step l in
       Pseudo.loop_body self gap time (s, r) env
       = (Pseudo.market_buy s amount time ;;; ret tt) env1 /\
       submitted (snd (Pseudo.loop_body self gap time (s, r) env))
       = submitted env ++ [mkOrder Buy s amount]) /\
      (~ Pseudo._ask_worth l < Pseudo._target_worth l ->
       Pseudo._item_exists l = true ->
       Pseudo._target_worth l < Pseudo._bid_worth l ->
       let amount :=
         (Pseudo._bid_worth l - Pseudo._target_worth l) * Pseudo._step l in
       Pseudo.loop_body self gap time (s, r) env
       = (Pseudo.market_sell s amount time ;;; ret tt) env1 /\
       submitted (snd (Pseudo.loop_body self gap time (s, r) env))
       = submitted env ++ [mkOrder Sell s amount])) /\
  (forall (self : Manager) (execute : bool) (gap W : Q)
          (oov : string -> result Q) (s : string) (r : Q)
          (env env1 : Env F2) (l : Real.locals),
      Real.observe self gap W oov s r env = (Val l, env1) ->
      (Real.target_worth l = r * W /\
       oov s = Val (Real.ord_worth l) /\
       Real.cur_worth l = Real.ava_worth l + Real.ord_worth l /\
       (exists bid ask, Real.bid_worth l = bid + Real.ord_worth l /\
                        Real.ask_worth l = ask + Real.ord_worth l) /\
       get_progression_func (params self) gap = Val (Real.step l)) /\
      (Real.ask_worth l < Real.target_worth l ->
       let amount :=
         (Real.target_worth l - Real.cur_worth l) * Real.step l in
       Real.subroutine self execute gap W oov s r env
       = Real.make_market_order execute s
           (Real.mkTentative (Some amount) (Some "market buy"%string)
                             (Some Real.market_buy)) env1 /\
       submitted (snd (Real.subroutine self execute gap W oov s r env))
       = (if execute then submitted env ++ [mkOrder Buy s amount]
          else submitted env) /\
       (execute = false ->
        Real.subroutine self execute gap W oov s r env
        = (Val PyNone,
           emit (INFO, MsgFake "market buy" s amount
                               (Real.folio_cash_name (folio env1))) env1))) /\
      (~ Real.ask_worth l < Real.target_worth l ->
       Real.item_exists l = true ->
       Real.target_worth l < Real.bid_worth l ->
       let amount :=
         (Real.cur_worth l - Real.target_worth l) * Real.step l in
       Real.subroutine self execute gap W oov s r env
       = Real.make_market_order execute s
           (Real.mkTentative (Some amount) (Some "market sell"%string)
                             (Some Real.market_sell)) env1 /\
       submitted (snd (Real.subroutine self execute gap W oov s r env))
       = (if execute then submitted env ++ [mkOrder Sell s amount]
          else submitted env) /\
       (execute = false ->
        Real.subroutine self execute gap W oov s r env
        = (Val PyNone,
           emit (INFO, MsgFake "market sell" s amount
                               (Real.folio_cash_name (folio env1))) env1)))).
Proof.
  split.
  - intros self gap time s r env env1 l Hobs.
    destruct (pseudo_observe_inv _ _ _ _ _ _ _ _ Hobs)
      as (W & f & HW & Ht & Hst & _ & Hsub).
    pose proof (pseudo_loop_body_run self gap time (s, r) env env1 l Hobs)
      as Hrun.
    cbn [fst snd] in Hrun.
    split; [eauto|]. split.
    + intros Hbuy. cbv zeta. rewrite Hrun, (pseudo_trade_buy time s l Hbuy).
      set (amount := (_ - _) * _).
      split; [reflexivity|].
      destruct (pseudo_market_buy_run s amount time env1)
        as (res & env2 & -> & Hs2 & _). cbn [snd]. now rewrite Hs2, Hsub.
    + intros Hn Hex Hsell. cbv zeta.
      rewrite Hrun, (pseudo_trade_sell time s l Hn Hex Hsell).
      set (amount := (_ - _) * _).
      split; [reflexivity|].
      destruct (pseudo_market_sell_run s amount time env1)
        as (res & env2 & -> & Hs2 & _). cbn [snd]. now rewrite Hs2, Hsub.
  - intros self execute gap W oov s r env env1 l Hobs.
    destruct (real_observe_inv _ _ _ _ _ _ _ _ _ Hobs)
      as (Ht & Hord & Hcur & Hadj & _ & Hst & _ & Hsub).
    pose proof (real_subroutine_run self execute gap W oov s r env env1 l Hobs)
      as Hrun.
    split; [tauto|]. split.
    + intros Hbuy. cbv zeta. rewrite Hrun, (real_decide_buy s l Hbuy).
      set (amount := (_ - _) * _).
      change ((t <- ret ?x ;; Real.make_market_order execute s t) env1)
        with (Real.make_market_order execute s x env1).
      split; [reflexivity|]. split.
      * destruct execute.
        -- destruct (real_order_buy s "market buy" amount env1)
             as (res & env2 & -> & Hs2 & _). cbn [snd]. now rewrite Hs2, Hsub.
        -- rewrite real_order_fake. cbn. exact Hsub.
      * intros ->. apply real_order_fake.
    + intros Hn Hex Hsell. cbv zeta.
      rewrite Hrun, (real_decide_sell s l Hn Hex Hsell).
      set (amount := (_ - _) * _).
      change ((t <- ret ?x ;; Real.make_market_order execute s t) env1)
        with (Real.make_market_order execute s x env1).
      split; [reflexivity|]. split.
      * destruct execute.
        -- destruct (real_order_sell s "market sell" amount env1)
             as (res & env2 & -> & Hs2 & _). cbn [snd]. now rewrite Hs2, Hsub.
        -- rewrite real_order_fake. cbn. exact Hsub.
      * intros ->. apply real_order_fake.
Qed.
(** C2. A symbol whose target worth lies strictly between its bid worth
    and its ask worth gets no order: the simulated iteration returns at
    once, and the live subroutine (whose worths include the open-order
    value) ends in the guard's fallback with the order list untouched,
    whatever [execute] is. *)
Theorem hold_places_no_order :
  (forall (self : Manager) (gap : Q) (time : Pseudo.Time) (s : string)
          (r : Q) (env env1 : Env F1) (l : Pseudo.locals),
      Pseudo.observe self gap time s r env = (Val l, env1) ->
      Pseudo._bid_worth l < Pseudo._target_worth l ->
      Pseudo._target_worth l < Pseudo._ask_worth l ->
      Pseudo.loop_body self gap time (s, r) env = (Val tt, env1) /\
      submitted env1 = submitted env) /\
  (forall (self : Manager) (execute : bool) (gap W : Q)
          (oov : string -> result Q) (s : string) (r : Q)
          (env env1 : Env F2) (l : Real.locals),
      Real.observe self gap W oov s r env = (Val l, env1) ->
      Real.bid_worth l < Real.target_worth l ->
      Real.target_worth l < Real.ask_worth l ->
      exists env2,
        Real.guarded_subroutine self execute gap W oov s r env
        = (Val (PyInt 0), env2) /\
        folio env2 = folio env1 /\
        submitted env2 = submitted env).
Proof.
  split.
  - intros self gap time s r env env1 l Hobs Hbid Hask.
    rewrite (pseudo_loop_body_run self gap time (s, r) env env1 l Hobs).
    cbn [fst]. rewrite pseudo_trade_hold by lra.
    split; [reflexivity|]. eapply pseudo_observe_quiet, Hobs.
  - intros self execute gap W oov s r env env1 l Hobs Hbid Hask.
    assert (Hraise := real_subroutine_hold self execute gap W oov s r
                        env env1 l Hobs).
    unfold Real.guarded_subroutine.
    rewrite (guard_raise _ _ _ _ _ (Hraise ltac:(lra) ltac:(lra))).
    eexists. split; [reflexivity|]. cbn. split; [reflexivity|].
    eapply real_observe_quiet, Hobs.
Qed.

(** C10. In the live subroutine a symbol that is neither bought nor sold
    is reported as staying put, after which reading the unassigned local
    [action] raises; the guard prints the exception and returns [0]. No
    order reaches the portfolio, with or without [execute]. *)
Theorem hold_branch_raises_unbound_local
        (self : Manager) (execute : bool) (gap W : Q)
        (oov : string -> result Q) (s : string) (r : Q)
        (env env1 : Env F2) (l : Real.locals) :
  Real.observe self gap W oov s r env = (Val l, env1) ->
  Real.target_worth l <= Real.ask_worth l ->
  ~ (Real.item_exists l = true /\ Real.target_worth l < Real.bid_worth l) ->
  Real.subroutine self execute gap W oov s r env
  = (Raise (UnboundLocalError "action"),
     emit (INFO, MsgStayingPut s) env1) /\
  Real.guarded_subroutine self execute gap W oov s r env
  = (Val (PyInt 0),
     emit (TRACEBACK, MsgException (UnboundLocalError "action"))
          (emit (INFO, MsgStayingPut s) env1)) /\
  submitted (snd (Real.guarded_subroutine self execute gap W oov s r env))
  = submitted env.
Proof.
  intros Hobs Hask Hsell.
  assert (Hraise : Real.subroutine self execute gap W oov s r env
                   = (Raise (UnboundLocalError "action"),
                      emit (INFO, MsgStayingPut s) env1)).
  { apply (real_subroutine_hold _ _ _ _ _ _ _ _ _ _ Hobs); [lra | exact Hsell]. }
  split; [exact Hraise|].
  unfold Real.guarded_subroutine. rewrite (guard_raise _ _ _ _ _ Hraise).
  split; [reflexivity|]. cbn. eapply real_observe_quiet, Hobs.
Qed.

(** C6. Live: the guarded subroutine returns for every symbol; when the
    subroutine raises, the exception is printed and [0] is returned from
    the state the exception left, in which no order call has returned (none
    was made, or the one made is what raised); the loop goes on with the
    remaining symbols; and once the portfolio has ticked and reported its worth and
    open orders, [tick_write] returns. Simulated: an exception raised in
    the iteration of a symbol leaves [tick_write] as that exception, and
    the symbols after it are not visited. *)
Theorem live_errors_contained_simulated_errors_propagate :
  (forall (self : Manager) (execute : bool) (gap W : Q)
          (oov : string -> result Q) (s : string) (r : Q) (env : Env F2),
      (exists v env',
          Real.guarded_subroutine self execute gap W oov s r env
          = (Val v, env')) /\
      (forall e env',
          Real.subroutine self execute gap W oov s r env = (Raise e, env') ->
          Real.guarded_subroutine self execute gap W oov s r env
          = (Val (PyInt 0), emit (TRACEBACK, MsgException e) env') /\
          (submitted env' = submitted env \/
           (exists amount f,
               submitted env' = submitted env ++ [mkOrder Buy s amount] /\
               Real.folio_market_buy s amount f = (Raise e, folio env')) \/
           (exists amount f,
               submitted env' = submitted env ++ [mkOrder Sell s amount] /\
               Real.folio_market_sell s amount f = (Raise e, folio env'))))) /\
  (forall (self : Manager) (execute : bool) (gap W : Q)
          (oov : string -> result Q) (entry : string * Q)
          (rest : list (string * Q)) (env : Env F2),
      exists env',
        Real.loop_body self execute gap W oov entry env = (Val tt, env') /\
        for_each (Real.loop_body self execute gap W oov) (entry :: rest) env
        = for_each (Real.loop_body self execute gap W oov) rest env') /\
  (forall (self : Manager) (execute : bool) (env : Env F2) (gap W : Q)
          (oov : string -> result Q) (f1 f2 f3 : F2),
      Real.folio_tick execute (folio env) = (Val gap, f1) ->
      Real.folio_worth f1 = (Val W, f2) ->
      Real.folio_open_order_values f2 = (Val oov, f3) ->
      exists env', Real.tick_write self execute env
                   = (Val (PyFloat gap), env')) /\
  (forall (self : Manager) (time : Pseudo.Time) (env env2 env3 : Env F1)
          (gap : Q) (f1 : F1) (pre post : list (string * Q))
          (entry : string * Q) (e : exn),
      Pseudo.folio_tick time (folio env) = (Val gap, f1) ->
      _running_equilibrium self = pre ++ entry :: post ->
      for_each (Pseudo.loop_body self gap time) pre
               (mkEnv f1 (console env) (submitted env)) = (Val tt, env2) ->
      Pseudo.loop_body self gap time entry env2 = (Raise e, env3) ->
      Pseudo.tick_write self time env = (Raise e, env3)).
Proof.
  repeat split.
  - apply guard_returns.
  - unfold Real.guarded_subroutine. apply guard_raise. assumption.
  - eapply real_subroutine_raise. eassumption.
  - intros self execute gap W oov entry rest env.
    destruct (guard_returns (PyInt 0) true
                (Real.subroutine self execute gap W oov (fst entry)
                                 (snd entry)) env) as (v & env' & Hg).
    exists env'.
    assert (Hbody : Real.loop_body self execute gap W oov entry env
                    = (Val tt, env')).
    { unfold Real.loop_body, Real.guarded_subroutine, bind. now rewrite Hg. }
    split; [exact Hbody|]. cbn [for_each]. unfold bind at 1.
    now rewrite Hbody.
  - intros self execute env gap W oov f1 f2 f3.
    apply real_tick_write_run.
  - intros self time env env2 env3 gap f1 pre post entry e Ht Heq Hpre Hbody.
    rewrite pseudo_tick_write_run, Ht, Heq.
    rewrite (for_each_app _ pre (entry :: post) _ _ Hpre).
    now rewrite (for_each_raise _ entry post _ _ _ Hbody).
Qed.

(** C9. The simulated [tick_write] obtains the gap from [folio.tick] and
    then returns [None], never the gap. *)
Theorem pseudo_tick_write_returns_none
        (self : Manager) (time : Pseudo.Time) (env env' : Env F1)
        (v : pyval) :
  Pseudo.tick_write self time env = (Val v, env') ->
  exists gap f1,
    Pseudo.folio_tick time (folio env) = (Val gap, f1) /\
    v = PyNone /\ v <> PyFloat gap.
Proof.
  rewrite pseudo_tick_write_run.
  destruct (Pseudo.folio_tick time (folio env)) as [[gap|e] f1];
    [|discriminate].
  destruct (for_each _ _ _) as [[u|e] env2]; [|discriminate].
  intros [= <- <-]. exists gap, f1. repeat split. discriminate.
Qed.

(** The live [tick_write] does return the gap. *)
Lemma real_tick_write_returns_gap
      (self : Manager) (execute : bool) (env env' : Env F2) (v : pyval) :
  Real.tick_write self execute env = (Val v, env') ->
  exists gap f1,
    Real.folio_tick execute (folio env) = (Val gap, f1) /\ v = PyFloat gap.
Proof.
  unfold Real.tick_write, bind, get, call, _info, modify, ret. cbn.
  destruct (Real.folio_tick execute (folio env)) as [[gap|e] f1];
    [|discriminate]. cbn.
  destruct (Real.folio_worth f1) as [[W|e] f2]; [|discriminate]. cbn.
  destruct (Real.folio_open_order_values f2) as [[oov|e] f3]; [|discriminate].
  destruct (for_each _ _ _) as [[u|e] env2]; [|discriminate].
  intros [= <- <-]. eauto.
Qed.
End Ticks.

Lemma toy_xyz_observed :
  Pseudo.observe toy_manager 86400 (0 : Q) "XYZ" (1 # 5) toy_env
  = (Val toy_xyz_locals, toy_env).
Proof. vm_compute. reflexivity. Defined.

Lemma toy_ovr_observed :
  Real.observe toy_manager 86400 1000 toy_oov "OVR" (1 # 5) toy_env
  = (Val toy_ovr_locals, toy_ovr_env).
Proof. vm_compute. reflexivity. Defined.

Lemma rebalance_decision_witness :
  (Pseudo._ask_worth toy_xyz_locals < Pseudo._target_worth toy_xyz_locals /\
   submitted (snd (Pseudo.loop_body toy_manager 86400 (0 : Q)
                                    ("XYZ"%string, 1 # 5) toy_env))
   = submitted toy_env
     ++ [mkOrder Buy "XYZ" (((1 # 5) * 1000 - 101) * toy_step)]) /\
  (Real.target_worth toy_ovr_locals < Real.bid_worth toy_ovr_locals /\
   submitted (snd (Real.subroutine toy_manager true 86400 1000
                                   toy_oov "OVR" (1 # 5) toy_env))
   = submitted toy_env
     ++ [mkOrder Sell "OVR" ((300 + 0 - (1 # 5) * 1000) * toy_step)]).
Proof.
  split.
  - assert (Hlt : Pseudo._ask_worth toy_xyz_locals
                  < Pseudo._target_worth toy_xyz_locals) by reflexivity.
    split; [exact Hlt|].
    exact (proj2 (proj1 (proj2
             (proj1 (@rebalance_decision Toy toy_pseudo Toy toy_real)
                    toy_manager 86400 (0 : Q) "XYZ"%string (1 # 5) toy_env
                    toy_env toy_xyz_locals toy_xyz_observed)) Hlt)).
  - assert (Hn : ~ Real.ask_worth toy_ovr_locals
                   < Real.target_worth toy_ovr_locals)
      by (intros H; discriminate H).
    assert (Hlt : Real.target_worth toy_ovr_locals
                  < Real.bid_worth toy_ovr_locals) by reflexivity.
    split; [exact Hlt|].
    exact (proj1 (proj2 (proj2 (proj2
             (proj2 (@rebalance_decision Toy toy_pseudo Toy toy_real)
                    toy_manager true 86400 1000 toy_oov
                    "OVR"%string (1 # 5) toy_env toy_ovr_env toy_ovr_locals
                    toy_ovr_observed)) Hn eq_refl Hlt))).
Defined.

Lemma toy_hld_observed_pseudo :
  Pseudo.observe toy_manager 86400 (0 : Q) "HLD" (1 # 5) toy_env
  = (Val toy_hld_pseudo, toy_env).
Proof. vm_compute. reflexivity. Defined.

Lemma toy_hld_observed_real :
  Real.observe toy_manager 86400 1000 toy_oov "HLD" (1 # 5) toy_env
  = (Val toy_hld_real, toy_hld_env).
Proof. vm_compute. reflexivity. Defined.

Lemma hold_places_no_order_witness :
  (Pseudo.loop_body toy_manager 86400 (0 : Q) ("HLD"%string, 1 # 5) toy_env
   = (Val tt, toy_env) /\
   submitted toy_env = submitted toy_env) /\
  (exists env2,
      Real.guarded_subroutine toy_manager true 86400 1000 toy_oov
                              "HLD" (1 # 5) toy_env = (Val (PyInt 0), env2) /\
      folio env2 = folio toy_hld_env /\
      submitted env2 = submitted toy_env).
Proof.
  split.
  - apply (proj1 (@hold_places_no_order Toy toy_pseudo Toy toy_real)
                 toy_manager 86400 (0 : Q) "HLD"%string (1 # 5) toy_env toy_env
                 toy_hld_pseudo toy_hld_observed_pseudo); reflexivity.
  - apply (proj2 (@hold_places_no_order Toy toy_pseudo Toy toy_real)
                 toy_manager true 86400 1000 toy_oov "HLD"%string (1 # 5)
                 toy_env toy_hld_env toy_hld_real
                 toy_hld_observed_real); reflexivity.
Defined.

Lemma hold_branch_raises_unbound_local_witness :
  Real.subroutine toy_manager true 86400 1000 toy_oov "HLD" (1 # 5) toy_env
  = (Raise (UnboundLocalError "action"),
     emit (INFO, MsgStayingPut "HLD") toy_hld_env) /\
  Real.guarded_subroutine toy_manager true 86400 1000 toy_oov "HLD" (1 # 5)
                          toy_env
  = (Val (PyInt 0),
     emit (TRACEBACK, MsgException (UnboundLocalError "action"))
          (emit (INFO, MsgStayingPut "HLD") toy_hld_env)) /\
  submitted (snd (Real.guarded_subroutine toy_manager true 86400 1000 toy_oov
                                          "HLD" (1 # 5) toy_env))
  = submitted toy_env.
Proof.
  apply (@hold_branch_raises_unbound_local Toy toy_real toy_manager true
           86400 1000 toy_oov "HLD"%string (1 # 5) toy_env toy_hld_env
           toy_hld_real toy_hld_observed_real).
  - intros H. discriminate H.
  - intros [_ H]. discriminate H.
Defined.

Lemma live_errors_contained_simulated_errors_propagate_witness :
  Real.guarded_subroutine toy_manager true 86400 1000 toy_oov "BAD" (1 # 10)
                          toy_env
  = (Val (PyInt 0),
     emit (TRACEBACK, MsgException (OtherError "order rejected")) toy_bad_env)
  /\
  Pseudo.tick_write toy_manager (0 : Q) toy_env
  = (Raise (OtherError "order rejected"), toy_after_bad).
Proof.
  split.
  - refine (proj1 (proj2 (proj1
              (@live_errors_contained_simulated_errors_propagate
                 Toy toy_pseudo Toy toy_real)
              toy_manager true 86400 1000 toy_oov "BAD"%string (1 # 10)
              toy_env) (OtherError "order rejected") toy_bad_env _)).
    vm_compute. reflexivity.
  - apply (proj2 (proj2 (proj2
             (@live_errors_contained_simulated_errors_propagate
                Toy toy_pseudo Toy toy_real)))
             toy_manager (0 : Q) toy_env toy_before_bad toy_after_bad
             86400 toy_folio
             [("XYZ"%string, 1 # 5); ("HLD"%string, 1 # 5)]
             [("OVR"%string, 1 # 5)] ("BAD"%string, 1 # 10)
             (OtherError "order rejected")).
    + reflexivity.
    + reflexivity.
    + vm_compute. reflexivity.
    + vm_compute. reflexivity.
Defined.

Lemma pseudo_tick_write_returns_none_witness :
  exists gap f1,
    Pseudo.folio_tick (0 : Q) (folio toy_env) = (Val gap, f1) /\
    PyNone = PyNone /\ PyNone <> PyFloat gap.
Proof.
  apply (@pseudo_tick_write_returns_none Toy toy_pseudo calm_manager (0 : Q)
           toy_env calm_after_tick PyNone).
  vm_compute. reflexivity.
Defined.

(** On the toy portfolio [folio.tick] reports a gap of [86400] seconds, the
    live manager returns it and the simulated one returns [None]. *)
Lemma toy_tick_return_values :
  Pseudo.folio_tick (0 : Q) (folio toy_env) = (Val 86400, toy_folio) /\
  fst (Pseudo.tick_write calm_manager (0 : Q) toy_env) = Val PyNone /\
  fst (Real.tick_write calm_manager true toy_env) = Val (PyFloat 86400).
Proof. repeat split. Qed.

(** ** Further properties of the progression function *)

(** X1. For parameters in (0, 1] the step never exceeds [cap] (so never
    [1]); it is non-negative for a non-negative gap, and for a negative gap
    it is the negative number [step * seconds / 86400]: there is no clamp
    from below. *)
Theorem capped_daily_progression_bounds (seconds step cap : Q) :
  0 < step <= 1 -> 0 < cap <= 1 ->
  exists v,
    capped_daily_progression seconds step cap = Val v /\
    v <= cap /\ v <= 1 /\
    (0 <= seconds -> 0 <= v) /\
    (seconds < 0 -> v < 0 /\ v == step * seconds / 86400).
Proof.
  intros Hs Hc. eexists. split.
  - apply capped_daily_progression_ok; assumption.
  - assert (E : step * (seconds / 86400) == step * seconds / 86400) by field.
    assert (Hsign : forall x, x * 86400 == step * seconds ->
                              (0 <= seconds -> 0 <= x) /\ (seconds < 0 -> x < 0)).
    { intros x Hx. split; intros Hsec; nra. }
    destruct (Hsign (step * (seconds / 86400))) as [Hpos Hneg]; [field|].
    unfold py_min. destruct (Qltb _ cap) eqn:Elt.
    + apply Qltb_true in Elt.
      split; [lra|]. split; [lra|]. split; [exact Hpos|].
      intros Hsec. split; [now apply Hneg | exact E].
    + apply Qltb_false in Elt.
      split; [lra|]. split; [lra|]. split; [intros _; lra|].
      intros Hsec. specialize (Hneg Hsec). lra.
Qed.

Lemma capped_daily_progression_bounds_witness :
  exists v,
    capped_daily_progression (-(3600)) default_step default_cap = Val v /\
    v <= default_cap /\ v <= 1 /\
    (0 <= -(3600) -> 0 <= v) /\
    (-(3600) < 0 -> v < 0 /\ v == default_step * -(3600) / 86400).
Proof.
  apply capped_daily_progression_bounds.
  - unfold default_step. lra.
  - unfold default_cap. lra.
Defined.

(** ** Further properties of the manager object *)

Lemma normalize_cases (raw : dict Q) (total : Q) :
  (total == 0 /\ raw <> [] /\ normalize raw total = Raise ZeroDivisionError) \/
  (total == 0 /\ raw = [] /\ normalize raw total = Val []) \/
  (~ total == 0 /\ normalize raw total = Val (scale total raw)).
Proof.
  destruct (Qeq_dec total 0) as [Hz|Hnz].
  - destruct raw as [|kv raw].
    + right; left. repeat split; assumption.
    + left. repeat split; [assumption | discriminate |].
      apply normalize_zero; [assumption | discriminate].
  - right; right. split; [assumption | now apply normalize_ok].
Qed.

(** X2. Assigning the equilibrium and [linear_update] never touch the
    initial equilibrium or the params; when either raises, the manager is
    exactly as before (the running equilibrium is replaced only as the last
    step), and the exception is an [AssertionError] or, for [linear_update]
    only, a [ZeroDivisionError]. *)
Theorem equilibrium_updates_are_atomic :
  (forall (equil_dict : dict Q) (o : Obj),
      _initial_equilibrium (self (snd (equilibrium_setter equil_dict o)))
      = _initial_equilibrium (self o) /\
      params (self (snd (equilibrium_setter equil_dict o))) = params (self o) /\
      (forall e, fst (equilibrium_setter equil_dict o) = Raise e ->
                 self (snd (equilibrium_setter equil_dict o)) = self o /\
                 exists msg, e = AssertionError msg)) /\
  (forall (equil_dictl : list (dict Q)) (coefficients : list Q) (o : Obj),
      _initial_equilibrium
        (self (snd (linear_update equil_dictl coefficients o)))
      = _initial_equilibrium (self o) /\
      params (self (snd (linear_update equil_dictl coefficients o)))
      = params (self o) /\
      (forall e, fst (linear_update equil_dictl coefficients o) = Raise e ->
                 self (snd (linear_update equil_dictl coefficients o)) = self o /\
                 (e = ZeroDivisionError \/ exists msg, e = AssertionError msg))).
Proof.
  assert (Hset : forall equil_dict o,
             _initial_equilibrium (self (snd (equilibrium_setter equil_dict o)))
             = _initial_equilibrium (self o) /\
             params (self (snd (equilibrium_setter equil_dict o)))
             = params (self o) /\
             (forall e, fst (equilibrium_setter equil_dict o) = Raise e ->
                        self (snd (equilibrium_setter equil_dict o)) = self o /\
                        exists msg, e = AssertionError msg)).
  { intros d o. rewrite equilibrium_setter_run. cbv zeta.
    destruct (Qle_bool _ _); cbn.
    - split; [reflexivity|]. split; [reflexivity|]. discriminate.
    - split; [reflexivity|]. split; [reflexivity|].
      intros e [= <-]. split; [reflexivity | eauto]. }
  split; [exact Hset|].
  intros dl cl o. rewrite linear_update_run.
  destruct (collect_dicts _ _ _ _) as [acc|e0] eqn:E.
  - destruct (normalize_cases (fst acc) (snd acc))
      as [(_ & _ & ->)|[(_ & _ & ->)|(_ & ->)]].
    + cbn. split; [reflexivity|]. split; [reflexivity|].
      intros e [= <-]. auto.
    + destruct (Hset [] o) as (Hi & Hp & He).
      split; [exact Hi|]. split; [exact Hp|].
      intros e Hr. destruct (He e Hr) as [Hs Hm]. auto.
    + destruct (Hset (scale (snd acc) (fst acc)) o) as (Hi & Hp & He).
      split; [exact Hi|]. split; [exact Hp|].
      intros e Hr. destruct (He e Hr) as [Hs Hm]. auto.
  - cbn. split; [reflexivity|]. split; [reflexivity|].
    intros e [= <-]. split; [reflexivity|]. right.
    eapply collect_dicts_raises, E.
Qed.

Lemma dict_set_values_nonneg (d : dict Q) (k : string) (v : Q) :
  Forall (fun kv => 0 <= snd kv) d -> 0 <= v ->
  Forall (fun kv => 0 <= snd kv) (dict_set d k v).
Proof.
  intros Hd Hv. induction Hd as [|[k0 v0] d H0 Hd IH]; cbn.
  - constructor; [exact Hv | constructor].
  - destruct (String.eqb k0 k); constructor; assumption.
Qed.

Lemma getz_nonneg (d : dict Q) (k : string) :
  Forall (fun kv => 0 <= snd kv) d -> 0 <= getz (dict_get d k).
Proof.
  intros Hd. induction Hd as [|[k0 v0] d H0 Hd IH]; cbn; [lra|].
  destruct (String.eqb k0 k); [exact H0 | exact IH].
Qed.

Lemma iadd_values_nonneg (d : dict Q) (k : string) (x : Q) :
  Forall (fun kv => 0 <= snd kv) d -> 0 <= x ->
  Forall (fun kv => 0 <= snd kv) (defaultdict_iadd d k x).
Proof.
  intros Hd Hx. unfold defaultdict_iadd.
  apply dict_set_values_nonneg; [exact Hd|].
  pose proof (getz_nonneg d k Hd) as Hg. unfold getz in Hg. lra.
Qed.

Lemma collect_items_nonneg (items : dict Q) (c : Q) (raw raw' : dict Q)
      (tot tot' : Q) :
  0 <= c -> Forall (fun kv => 0 <= snd kv) raw ->
  collect_items items c raw tot = Val (raw', tot') ->
  Forall (fun kv => 0 <= snd kv) raw'.
Proof.
  intros Hc. revert raw tot. induction items as [|[s r] items IH];
    intros raw tot Hraw; cbn.
  - now intros [= <- <-].
  - destruct (Qle_bool 0 r) eqn:E; cbn; [|discriminate].
    apply Qle_bool_iff in E. destruct (Qltb 0 r).
    + apply IH. apply iadd_values_nonneg; [assumption | nra].
    + now apply IH.
Qed.

Lemma collect_dicts_nonneg (cash : Q) (pairs : list (dict Q * Q))
      (raw raw' : dict Q) (total total' : Q) :
  Forall (fun p => 0 <= snd p) pairs ->
  Forall (fun kv => 0 <= snd kv) raw ->
  collect_dicts cash pairs raw total = Val (raw', total') ->
  Forall (fun kv => 0 <= snd kv) raw'.
Proof.
  intros Hc. revert raw total. induction Hc as [|[d c] pairs Hc0 _ IH];
    intros raw total Hraw; cbn [collect_dicts].
  - now intros [= <- <-].
  - destruct (collect_items d c raw 0) as [[raw1 tot1]|e] eqn:E; [|discriminate].
    destruct (Qle_bool tot1 (1 - cash)); cbn [negb]; [|discriminate].
    apply IH. eapply collect_items_nonneg; eauto.
Qed.

Lemma Forall_combine_snd {A B} (P : B -> Prop) (xs : list A) (ys : list B) :
  Forall P ys -> Forall (fun p => P (snd p)) (combine xs ys).
Proof.
  intros H. revert xs. induction H as [|y ys Hy _ IH]; intros [|x xs]; cbn;
    constructor; auto.
Qed.

Lemma scale_values_nonneg (total : Q) (d : dict Q) :
  0 < total -> Forall (fun kv => 0 <= snd kv) d ->
  Forall (fun kv => 0 <= snd kv) (scale total d).
Proof.
  intros Ht Hd. induction Hd as [|[k v] d Hv _ IH]; cbn; constructor; auto.
  cbn in *. apply Qle_shift_div_l; lra.
Qed.

(** X3. With non-negative coefficients, whatever [linear_update] installs
    has pairwise distinct symbols, no negative ratio, and a total ratio of
    at most [1 - cash_ratio]. *)
Theorem linear_update_result_invariant (o o' : Obj)
        (equil_dictl : list (dict Q)) (coefficients : list Q) :
  Forall (fun c => 0 <= c) coefficients ->
  linear_update equil_dictl coefficients o = (Val tt, o') ->
  wf_dict (_running_equilibrium (self o')) /\
  Forall (fun kv => 0 <= snd kv) (_running_equilibrium (self o')) /\
  py_sum (values (_running_equilibrium (self o')))
  <= 1 - get_cash_ratio (params (self o')).
Proof.
  intros Hcoef. rewrite linear_update_run.
  set (cash := get_cash_ratio (params (self o))).
  set (pairs := combine equil_dictl coefficients).
  assert (Hc : Forall (fun p => 0 <= snd p) pairs)
    by (apply Forall_combine_snd, Hcoef).
  destruct (collect_dicts cash pairs [] 0) as [[raw total]|e] eqn:E;
    [|discriminate].
  pose proof (collect_dicts_nonneg _ _ _ _ _ _ Hc (Forall_nil _) E) as Hnn.
  pose proof (collect_dicts_val _ _ _ _ _ E) as Hok.
  destruct (collect_dicts_ok cash pairs [] 0 Hok)
    as (raw2 & total2 & Hrun & Htot & _ & Hwf & _).
  rewrite E in Hrun. injection Hrun as <- <-.
  assert (Htotal : 0 <= total).
  { rewrite Htot. assert (H0 : 0 <= py_sum (map snd pairs)).
    { clear -Hc. induction Hc as [|p ps Hp _ IH].
      - unfold py_sum; cbn; lra.
      - rewrite py_sum_map_snd_cons. lra. }
    lra. }
  cbn [fst snd].
  destruct (normalize_cases raw total)
    as [(_ & _ & ->)|[(_ & -> & ->)|(Hnz & ->)]]; [discriminate| |];
    rewrite equilibrium_setter_run; cbv zeta; fold cash;
    destruct (Qle_bool _ (1 - cash)) eqn:Ele; try discriminate;
    intros [= <-]; cbn; apply Qle_bool_iff in Ele.
  - repeat split; [constructor | constructor | exact Ele].
  - repeat split.
    + unfold wf_dict. rewrite keys_scale. apply Hwf. constructor.
    + apply scale_values_nonneg; [lra | exact Hnn].
    + exact Ele.
Qed.

Lemma linear_update_result_invariant_witness :
  exists o',
    linear_update [[("A"%string, 1 # 2); ("B"%string, 1 # 4)];
                   [("A"%string, 1 # 5); ("C"%string, 0)]]
                  [1; 3] (fresh_obj [("A"%string, 1 # 2)]) = (Val tt, o') /\
    wf_dict (_running_equilibrium (self o')) /\
    Forall (fun kv => 0 <= snd kv) (_running_equilibrium (self o')) /\
    py_sum (values (_running_equilibrium (self o')))
    <= 1 - get_cash_ratio (params (self o')).
Proof.
  eexists. split; [reflexivity|].
  apply (linear_update_result_invariant (fresh_obj [("A"%string, 1 # 2)]) _
           [[("A"%string, 1 # 2); ("B"%string, 1 # 4)];
            [("A"%string, 1 # 5); ("C"%string, 0)]] [1; 3]).
  - repeat constructor; discriminate.
  - reflexivity.
Defined.





(** X5. Sources and coefficients are paired off from the front: whatever
    one list has beyond the length of the other is not read, not even to be
    validated. *)
Theorem linear_update_ignores_unmatched
        (equil_dictl more_dicts : list (dict Q))
        (coefficients more_coefficients : list Q) (o : Obj) :
  List.length equil_dictl = List.length coefficients ->
  linear_update (equil_dictl ++ more_dicts) coefficients o
  = linear_update equil_dictl coefficients o /\
  linear_update equil_dictl (coefficients ++ more_coefficients) o
  = linear_update equil_dictl coefficients o.
Proof.
  intros Hlen. rewrite !linear_update_run.
  assert (H1 : combine (equil_dictl ++ more_dicts) coefficients
               = combine equil_dictl coefficients).
  { revert coefficients Hlen.
    induction equil_dictl as [|d dl IH]; intros [|c cl] Hlen; cbn in *;
      try discriminate; try reflexivity.
    - now destruct more_dicts.
    - f_equal. apply IH. lia. }
  assert (H2 : combine equil_dictl (coefficients ++ more_coefficients)
               = combine equil_dictl coefficients).
  { clear H1. revert coefficients Hlen.
    induction equil_dictl as [|d dl IH]; intros [|c cl] Hlen; cbn in *;
      try discriminate; try reflexivity.
    f_equal. apply IH. lia. }
  now rewrite H1, H2.
Qed.

Lemma linear_update_ignores_unmatched_witness :
  linear_update ([[("A"%string, 1 # 2)]] ++ [[("B"%string, 5)]]) [1]
                (fresh_obj [])
  = linear_update [[("A"%string, 1 # 2)]] [1] (fresh_obj []) /\
  linear_update [[("A"%string, 1 # 2)]] ([1] ++ [-(7)]) (fresh_obj [])
  = linear_update [[("A"%string, 1 # 2)]] [1] (fresh_obj []).
Proof.
  apply linear_update_ignores_unmatched. reflexivity.
Defined.

(** X6. A manager whose initial and running equilibria coincide (a fresh
    one, or one that was itself loaded) is read back exactly, with a
    serializer that reads back what it wrote; loading changes no file. *)
Theorem pickle_round_trip_exact (bytes : Type) (pickle_dump : pkl_dict -> bytes)
        (pickle_load : bytes -> result pkl_dict)
        (self : Manager) (pkl_path : string) (fs : filesystem bytes) :
  (forall p, pickle_load (pickle_dump p) = Val p) ->
  _initial_equilibrium self = _running_equilibrium self ->
  load_pickle bytes pickle_load pkl_path
              (snd (dump_pickle bytes pickle_dump self pkl_path fs))
  = (Val self, snd (dump_pickle bytes pickle_dump self pkl_path fs)).
Proof.
  intros Hrt Heq.
  unfold load_pickle, dump_pickle, modify, bind, get, lift_result, ret.
  cbn [fst snd]. rewrite dict_get_set, String.eqb_refl, Hrt.
  unfold __init__. cbn. destruct self as [i r p]. cbn in *. now subst.
Qed.

Lemma pickle_round_trip_exact_witness :
  load_pickle pkl_dict id_load "m.pkl"
              (snd (dump_pickle pkl_dict id_dump toy_manager "m.pkl" []))
  = (Val toy_manager,
     snd (dump_pickle pkl_dict id_dump toy_manager "m.pkl" [])).
Proof.
  apply pickle_round_trip_exact.
  - intros p. reflexivity.
  - reflexivity.
Defined.

(** ** Further properties of the tick *)

Lemma subseq_nil_l {A} (ys : list A) : subseq [] ys.
Proof. induction ys; constructor; assumption. Qed.

Lemma subseq_app {A} (xs ys xs' ys' : list A) :
  subseq xs ys -> subseq xs' ys' -> subseq (xs ++ xs') (ys ++ ys').
Proof.
  intros H H'. induction H; cbn; try constructor; assumption.
Qed.

Lemma quiet_for_each {F A} (body : A -> M (Env F) unit) (xs : list A) :
  (forall x, quiet (body x)) -> quiet (for_each body xs).
Proof.
  intros Hb. induction xs as [|x xs IH]; cbn [for_each].
  - apply quiet_ret.
  - apply quiet_bind; [apply Hb | intros _; exact IH].
Qed.

Lemma quiet_guarded {F A} (fallback : A) (tb : bool) (m : M (Env F) A) :
  quiet m -> quiet (guard fallback tb m).
Proof.
  intros Hm env r env'. unfold guard.
  destruct (m env) as [[a|e] env1] eqn:E.
  - intros [= <- <-]. eapply Hm, E.
  - intros [= <- <-]. destruct tb; cbn; eapply Hm, E.
Qed.

(** The orders a loop adds are the concatenation of what its iterations
    add, up to the iteration that raises. *)
Lemma for_each_orders {F A} (body : A -> M (Env F) unit) (sym : A -> string)
      (ok : order -> Prop) (xs : list A) :
  (forall x env r env',
      body x env = (r, env') ->
      exists os, submitted env' = submitted env ++ os /\
                 subseq (map order_symbol os) [sym x] /\ Forall ok os) ->
  forall env r env',
    for_each body xs env = (r, env') ->
    exists os, submitted env' = submitted env ++ os /\
               subseq (map order_symbol os) (map sym xs) /\ Forall ok os.
Proof.
  intros Hb. induction xs as [|x xs IH]; intros env r env'; cbn [for_each].
  - intros [= <- <-]. exists []. rewrite app_nil_r.
    split; [reflexivity|]. split; constructor.
  - unfold bind. destruct (body x env) as [[u|e] env1] eqn:E.
    + intros Hrest. destruct (Hb _ _ _ _ E) as (os1 & Hs1 & Hq1 & Hok1).
      destruct (IH _ _ _ Hrest) as (os2 & Hs2 & Hq2 & Hok2).
      exists (os1 ++ os2). rewrite Hs2, Hs1, app_assoc. split; [reflexivity|].
      split.
      * rewrite map_app. change (map sym (x :: xs)) with ([sym x] ++ map sym xs).
        now apply subseq_app.
      * apply Forall_app. now split.
    + intros [= <- <-]. destruct (Hb _ _ _ _ E) as (os1 & Hs1 & Hq1 & Hok1).
      exists os1. repeat split; try assumption.
      change (map sym (x :: xs)) with ([sym x] ++ map sym xs).
      rewrite <- (app_nil_r (map order_symbol os1)).
      apply subseq_app; [assumption | apply subseq_nil_l].
Qed.

Section MoreTicks.
Context {F1 : Type} {P1 : Pseudo.Portfolio F1}.
Context {F2 : Type} {P2 : Real.Portfolio F2}.

Lemma pseudo_loop_body_orders (self : Manager) (gap : Q) (time : Pseudo.Time)
      (entry : string * Q) (env : Env F1) (r : result unit) (env' : Env F1) :
  Pseudo.loop_body self gap time entry env = (r, env') ->
  exists os,
    submitted env' = submitted env ++ os /\
    subseq (map order_symbol os) [fst entry] /\
    Forall (fun o => (forall g v, get_progression_func (params self) g = Val v
                                  -> 0 <= v) -> 0 <= order_amount o) os.
Proof.
  intros H.
  destruct (Pseudo.observe self gap time (fst entry) (snd entry) env)
    as [[l|e] env1] eqn:Hobs.
  - destruct (pseudo_observe_inv _ _ _ _ _ _ _ _ Hobs)
      as (W & f & _ & _ & Hst & _ & Hsub).
    rewrite (pseudo_loop_body_run _ _ _ _ _ _ _ Hobs) in H.
    destruct (Qlt_le_dec (Pseudo._ask_worth l) (Pseudo._target_worth l))
      as [Hbuy|Hnb].
    + rewrite (pseudo_trade_buy time _ l Hbuy) in H.
      destruct (pseudo_market_buy_run (fst entry)
                  ((Pseudo._target_worth l - Pseudo._ask_worth l)
                   * Pseudo._step l) time env1)
        as (r2 & env2 & Hrun & Hs2 & _).
      rewrite Hrun in H. injection H as <- <-.
      eexists. rewrite Hs2, Hsub. split; [reflexivity|]. split.
      * cbn. apply subseq_take, subseq_nil.
      * constructor; [|constructor]. cbn. intros Hp.
        specialize (Hp _ _ Hst). nra.
    + destruct (Pseudo._item_exists l) eqn:Hex;
        [destruct (Qlt_le_dec (Pseudo._target_worth l) (Pseudo._bid_worth l))
           as [Hsell|Hns]|].
      * rewrite (pseudo_trade_sell time _ l ltac:(lra) Hex Hsell) in H.
        destruct (pseudo_market_sell_run (fst entry)
                    ((Pseudo._bid_worth l - Pseudo._target_worth l)
                     * Pseudo._step l) time env1)
          as (r2 & env2 & Hrun & Hs2 & _).
        rewrite Hrun in H. injection H as <- <-.
        eexists. rewrite Hs2, Hsub. split; [reflexivity|]. split.
        -- cbn. apply subseq_take, subseq_nil.
        -- constructor; [|constructor]. cbn. intros Hp.
           specialize (Hp _ _ Hst). nra.
      * rewrite (pseudo_trade_hold time _ l) in H
          by first [lra | intros [? ?]; lra].
        injection H as <- <-. exists []. rewrite app_nil_r.
        split; [exact Hsub|]. split; [apply subseq_nil_l | constructor].
      * rewrite (pseudo_trade_hold time _ l) in H
          by first [lra | intros [? ?]; congruence].
        injection H as <- <-. exists []. rewrite app_nil_r.
        split; [exact Hsub|]. split; [apply subseq_nil_l | constructor].
  - unfold Pseudo.loop_body, bind in H. rewrite Hobs in H.
    injection H as <- <-. exists []. rewrite app_nil_r.
    split; [eapply pseudo_observe_quiet, Hobs|].
    split; [apply subseq_nil_l | constructor].
Qed.

(** X7. The orders a simulated tick hands to the portfolio follow the
    running equilibrium: at most one per symbol, for symbols of the
    equilibrium only and in its order; and their amounts are non-negative
    whenever the progression function never returns a negative step. *)
Theorem pseudo_tick_orders_follow_equilibrium
        (self : Manager) (time : Pseudo.Time) (env : Env F1) :
  exists os,
    submitted (snd (Pseudo.tick_write self time env)) = submitted env ++ os /\
    subseq (map order_symbol os) (keys (_running_equilibrium self)) /\
    ((forall g v, get_progression_func (params self) g = Val v -> 0 <= v) ->
     Forall (fun o => 0 <= order_amount o) os).
Proof.
  rewrite pseudo_tick_write_run.
  destruct (Pseudo.folio_tick time (folio env)) as [[gap|e] f1].
  - destruct (for_each (Pseudo.loop_body self gap time)
                (_running_equilibrium self)
                (mkEnv f1 (console env) (submitted env)))
      as [r env'] eqn:E.
    destruct (for_each_orders _ fst _ _
                (pseudo_loop_body_orders self gap time) _ _ _ E)
      as (os & Hs & Hq & Hok).
    exists os. cbn in Hs.
    assert (Hsnd : submitted env' = submitted env ++ os) by exact Hs.
    split; [destruct r; exact Hsnd|]. split; [exact Hq|].
    intros Hp. eapply Forall_impl; [|exact Hok]. cbn. auto.
  - exists []. cbn. rewrite app_nil_r.
    split; [reflexivity|]. split; [apply subseq_nil_l | constructor].
Qed.

Lemma real_subroutine_orders (self : Manager) (execute : bool) (gap W : Q)
      (oov : string -> result Q) (s : string) (r : Q)
      (env : Env F2) (res : result pyval) (env' : Env F2) :
  Real.subroutine self execute gap W oov s r env = (res, env') ->
  exists os,
    submitted env' = submitted env ++ os /\
    subseq (map order_symbol os) [s] /\
    Forall (fun _ => execute = true) os.
Proof.
  intros H.
  assert (Hnone : submitted env' = submitted env ->
                  exists os, submitted env' = submitted env ++ os /\
                             subseq (map order_symbol os) [s] /\
                             Forall (fun _ => execute = true) os).
  { intros Hs. exists []. rewrite app_nil_r.
    split; [exact Hs|]. split; [apply subseq_nil_l | constructor]. }
  assert (Hone : forall side a,
             execute = true ->
             submitted env' = submitted env ++ [mkOrder side s a] ->
             exists os, submitted env' = submitted env ++ os /\
                        subseq (map order_symbol os) [s] /\
                        Forall (fun _ => execute = true) os).
  { intros side a He Hs. exists [mkOrder side s a].
    split; [exact Hs|]. split; [apply subseq_take, subseq_nil|].
    constructor; [exact He | constructor]. }
  destruct (Real.observe self gap W oov s r env) as [[l|e0] env1] eqn:Hobs.
  - pose proof (real_observe_quiet _ _ _ _ _ _ _ _ _ Hobs) as Hsub.
    rewrite (real_subroutine_run _ _ _ _ _ _ _ _ _ _ Hobs) in H.
    destruct (Qlt_le_dec (Real.ask_worth l) (Real.target_worth l))
      as [Hbuy|Hnb].
    + rewrite (real_decide_buy s l Hbuy) in H.
      change ((t <- ret ?x ;; Real.make_market_order execute s t) env1)
        with (Real.make_market_order execute s x env1) in H.
      destruct execute.
      * match type of H with
        | Real.make_market_order true s
            (Real.mkTentative (Some ?a) (Some ?act) _) _ = _ =>
            destruct (real_order_buy s act a env1)
              as (res2 & env2 & Hrun & Hs2 & _)
        end.
        rewrite Hrun in H. injection H as <- <-.
        eapply Hone; [reflexivity | now rewrite Hs2, Hsub].
      * rewrite real_order_fake in H. injection H as <- <-.
        apply Hnone. exact Hsub.
    + destruct (Real.item_exists l) eqn:Hex;
        [destruct (Qlt_le_dec (Real.target_worth l) (Real.bid_worth l))
           as [Hsell|Hns]|].
      * rewrite (real_decide_sell s l ltac:(lra) Hex Hsell) in H.
        change ((t <- ret ?x ;; Real.make_market_order execute s t) env1)
          with (Real.make_market_order execute s x env1) in H.
        destruct execute.
        -- match type of H with
           | Real.make_market_order true s
               (Real.mkTentative (Some ?a) (Some ?act) _) _ = _ =>
               destruct (real_order_sell s act a env1)
                 as (res2 & env2 & Hrun & Hs2 & _)
           end.
           rewrite Hrun in H. injection H as <- <-.
           eapply Hone; [reflexivity | now rewrite Hs2, Hsub].
        -- rewrite real_order_fake in H. injection H as <- <-.
           apply Hnone. exact Hsub.
      * rewrite (real_decide_hold s l) in H
          by first [lra | intros [? ?]; lra].
        injection H as <- <-. apply Hnone. exact Hsub.
      * rewrite (real_decide_hold s l) in H
          by first [lra | intros [? ?]; congruence].
        injection H as <- <-. apply Hnone. exact Hsub.
  - unfold Real.subroutine, bind in H. rewrite Hobs in H.
    injection H as <- <-. apply Hnone.
    eapply real_observe_quiet, Hobs.
Qed.

Lemma real_loop_body_orders (self : Manager) (execute : bool) (gap W : Q)
      (oov : string -> result Q) (entry : string * Q)
      (env : Env F2) (res : result unit) (env' : Env F2) :
  Real.loop_body self execute gap W oov entry env = (res, env') ->
  exists os,
    submitted env' = submitted env ++ os /\
    subseq (map order_symbol os) [fst entry] /\
    Forall (fun _ => execute = true) os.
Proof.
  unfold Real.loop_body, Real.guarded_subroutine, bind, guard, ret.
  destruct (Real.subroutine self execute gap W oov (fst entry) (snd entry) env)
    as [[v|e] env1] eqn:E; intros [= <- <-];
    destruct (real_subroutine_orders _ _ _ _ _ _ _ _ _ _ E)
      as (os & Hs & Hq & Hok); exists os; cbn; auto.
Qed.

(** The live tick, call by call. *)
Lemma real_tick_write_cases (self : Manager) (execute : bool) (env : Env F2) :
  (exists e env', Real.tick_write self execute env = (Raise e, env') /\
                  submitted env' = submitted env) \/
  (exists gap W oov f1 f2 env0 env',
      Real.folio_tick execute (folio env) = (Val gap, f1) /\
      Real.folio_worth f1 = (Val W, f2) /\
      Real.folio_open_order_values f2 = (Val oov, folio env0) /\
      submitted env0 = submitted env /\
      for_each (Real.loop_body self execute gap W oov)
               (_running_equilibrium self) env0 = (Val tt, env') /\
      Real.tick_write self execute env = (Val (PyFloat gap), env')).
Proof.
  unfold Real.tick_write, bind, get, call, _info, modify, ret. cbn.
  destruct (Real.folio_tick execute (folio env)) as [[gap|e] f1] eqn:Et;
    [|left; eexists _, _; split; reflexivity]. cbn.
  destruct (Real.folio_worth f1) as [[W|e] f2] eqn:Ew;
    [|left; eexists _, _; split; reflexivity]. cbn.
  destruct (Real.folio_open_order_values f2) as [[oov|e] f3] eqn:Eo;
    [|left; eexists _, _; split; reflexivity].
  match goal with
  | |- context [for_each ?body ?xs ?st] =>
      set (env0 := st);
      assert (Hb : forall x s0, exists s', body x s0 = (Val tt, s'));
      [ | destruct (for_each_total body xs Hb env0) as [s' Hs'] ]
  end.
  - intros entry s0.
    destruct (guard_returns (PyInt 0) true
                (Real.subroutine self execute gap W oov (fst entry)
                                 (snd entry)) s0) as (v & s1 & Hg).
    unfold Real.loop_body, Real.guarded_subroutine, bind. rewrite Hg.
    eexists. reflexivity.
  - right. rewrite Hs'. exists gap, W, oov, f1, f2, env0, s'.
    repeat split; assumption.
Qed.

(** X8. The orders a live tick hands to the portfolio follow the running
    equilibrium (at most one per symbol, for its symbols only, in its
    order), and a dry run ([execute = False]) hands it none. *)
Theorem real_tick_orders_follow_equilibrium
        (self : Manager) (execute : bool) (env : Env F2) :
  exists os,
    submitted (snd (Real.tick_write self execute env)) = submitted env ++ os /\
    subseq (map order_symbol os) (keys (_running_equilibrium self)) /\
    (execute = false -> os = []).
Proof.
  destruct (real_tick_write_cases self execute env)
    as [(e & env' & -> & Hs)
       |(gap & W & oov & f1 & f2 & env0 & env' & _ & _ & _ & Hs0 & Hloop & ->)].
  - exists []. cbn. rewrite app_nil_r.
    split; [exact Hs|]. split; [apply subseq_nil_l | reflexivity].
  - destruct (for_each_orders _ fst _ _
                (real_loop_body_orders self execute gap W oov) _ _ _ Hloop)
      as (os & Hs & Hq & Hok).
    exists os. cbn. rewrite Hs, Hs0. split; [reflexivity|].
    split; [exact Hq|]. intros ->. destruct os as [|o os]; [reflexivity|].
    inversion Hok; discriminate.
Qed.


Lemma real_loop_body_quiet_unobserved (self : Manager) (execute : bool)
      (gap W : Q) (oov : string -> result Q) :
  (forall s r env l env1,
      Real.observe self gap W oov s r env <> (Val l, env1)) ->
  forall entry, quiet (Real.loop_body self execute gap W oov entry).
Proof.
  intros Hun entry. unfold Real.loop_body, Real.guarded_subroutine.
  apply quiet_bind; [|intros _; apply quiet_ret].
  apply quiet_guarded. intros env r env' H.
  unfold Real.subroutine, bind in H.
  destruct (Real.observe self gap W oov (fst entry) (snd entry) env)
    as [[l|e] env1] eqn:Hobs.
  - exfalso. eapply Hun, Hobs.
  - injection H as <- <-. eapply real_observe_quiet, Hobs.
Qed.

(** X10. When the portfolio reports a total worth of zero, the live tick
    hands it no order (every symbol stops at the division by the worth,
    inside the guard) and still returns the gap. *)
Theorem live_tick_with_zero_worth_places_no_order
        (self : Manager) (execute : bool) (env : Env F2) (gap W : Q)
        (oov : string -> result Q) (f1 f2 f3 : F2) :
  Real.folio_tick execute (folio env) = (Val gap, f1) ->
  Real.folio_worth f1 = (Val W, f2) ->
  W == 0 ->
  Real.folio_open_order_values f2 = (Val oov, f3) ->
  exists env',
    Real.tick_write self execute env = (Val (PyFloat gap), env') /\
    submitted env' = submitted env.
Proof.
  intros Ht Hw Hz Ho.
  destruct (real_tick_write_cases self execute env)
    as [(e & env' & Hr & _)
       |(gap' & W' & oov' & f1' & f2' & env0 & env' & Ht' & Hw' & Ho' & Hs0
         & Hloop & Hr)].
  - destruct (real_tick_write_run self execute env gap W oov f1 f2 f3 Ht Hw Ho)
      as [env'' Hv]. congruence.
  - rewrite Ht in Ht'. injection Ht' as <- <-.
    rewrite Hw in Hw'. injection Hw' as <- <-.
    rewrite Ho in Ho'. injection Ho' as <- _.
    exists env'. split; [exact Hr|]. rewrite <- Hs0.
    eapply (quiet_for_each (Real.loop_body self execute gap W oov)); [|exact Hloop].
    apply real_loop_body_quiet_unobserved.
    intros s r e0 l e1 Hobs.
    apply real_observe_inv in Hobs as (_ & _ & _ & _ & Hnz & _). contradiction.
Qed.

(** X11. A progression function that returns a step above [1] for the gap
    of this tick stops every symbol at the step assertion: neither variant
    hands an order to the portfolio; the simulated tick raises as soon as
    there is a symbol, the live one swallows the failures. *)
Theorem oversized_step_places_no_order :
  (forall (self : Manager) (time : Pseudo.Time) (env : Env F1) (gap st : Q)
          (f1 : F1),
      Pseudo.folio_tick time (folio env) = (Val gap, f1) ->
      get_progression_func (params self) gap = Val st ->
      1 < st ->
      submitted (snd (Pseudo.tick_write self time env)) = submitted env /\
      (_running_equilibrium self <> [] ->
       exists e, fst (Pseudo.tick_write self time env) = Raise e)) /\
  (forall (self : Manager) (execute : bool) (env : Env F2) (gap st : Q)
          (f1 : F2),
      Real.folio_tick execute (folio env) = (Val gap, f1) ->
      get_progression_func (params self) gap = Val st ->
      1 < st ->
      submitted (snd (Real.tick_write self execute env)) = submitted env).
Proof.
  split.
  - intros self time env gap st f1 Ht Hst Hbig.
    assert (Hun : forall entry e0,
               exists e e1, Pseudo.loop_body self gap time entry e0 = (Raise e, e1)
                            /\ submitted e1 = submitted e0).
    { intros entry e0. unfold Pseudo.loop_body, bind.
      destruct (Pseudo.observe self gap time (fst entry) (snd entry) e0)
        as [[l|e] e1] eqn:Hobs.
      - apply pseudo_observe_inv in Hobs as (_ & _ & _ & _ & Hst' & Hle & _).
        rewrite Hst in Hst'. injection Hst' as Heq.
        rewrite <- Heq in Hle. lra.
      - exists e, e1. split; [reflexivity|].
        eapply pseudo_observe_quiet, Hobs. }
    rewrite pseudo_tick_write_run, Ht.
    destruct (_running_equilibrium self) as [|entry rest].
    + cbn. split; [reflexivity | congruence].
    + destruct (Hun entry (mkEnv f1 (console env) (submitted env)))
        as (e & e1 & Hr & Hs).
      rewrite (for_each_raise _ entry rest _ _ _ Hr). cbn.
      split; [exact Hs | eauto].
  - intros self execute env gap st f1 Ht Hst Hbig.
    destruct (real_tick_write_cases self execute env)
      as [(e & env' & -> & Hs)
         |(gap' & W & oov & f1' & f2 & env0 & env' & Ht' & _ & _ & Hs0
           & Hloop & ->)]; [exact Hs|].
    rewrite Ht in Ht'. injection Ht' as <- <-. cbn. rewrite <- Hs0.
    eapply (quiet_for_each (Real.loop_body self execute gap W oov)); [|exact Hloop].
    apply real_loop_body_quiet_unobserved.
    intros s r e0 l e1 Hobs.
    apply real_observe_inv in Hobs as (_ & _ & _ & _ & _ & Hst' & Hle & _).
    rewrite Hst in Hst'. injection Hst' as Heq.
        rewrite <- Heq in Hle. lra.
Qed.
End MoreTicks.


Lemma live_tick_with_zero_worth_places_no_order_witness :
  exists env',
    Real.tick_write toy_manager true broke_env = (Val (PyFloat 86400), env') /\
    submitted env' = submitted broke_env.
Proof.
  apply (@live_tick_with_zero_worth_places_no_order Toy toy_real toy_manager
           true broke_env 86400 0 toy_oov (folio broke_env) (folio broke_env)
           (folio broke_env)); reflexivity.
Defined.

Lemma oversized_step_places_no_order_witness :
  (submitted (snd (Pseudo.tick_write hasty_manager (0 : Q) toy_env))
   = submitted toy_env /\
   (_running_equilibrium hasty_manager <> [] ->
    exists e, fst (Pseudo.tick_write hasty_manager (0 : Q) toy_env) = Raise e))
  /\
  submitted (snd (Real.tick_write hasty_manager true toy_env))
  = submitted toy_env.
Proof.
  split.
  - apply (proj1 (@oversized_step_places_no_order Toy toy_pseudo Toy toy_real)
                 hasty_manager (0 : Q) toy_env 86400 2 toy_folio);
      reflexivity.
  - apply (proj2 (@oversized_step_places_no_order Toy toy_pseudo Toy toy_real)
                 hasty_manager true toy_env 86400 2 toy_folio);
      reflexivity.
Defined.

(** ** tick_read *)

Lemma keys_dict_set_add_key {V} (d : dict V) (k : string) (v : V) :
  keys (dict_set d k v) = add_key (keys d) k.
Proof.
  unfold add_key. induction d as [|[k0 v0] d IH]; cbn; [reflexivity|].
  rewrite (String.eqb_sym k k0). destruct (String.eqb k0 k); cbn;
    [reflexivity|].
  unfold keys in IH. rewrite IH. now destruct (existsb _ _).
Qed.

Lemma add_key_in (ks : list string) (k : string) :
  In k ks -> add_key ks k = ks.
Proof.
  intros Hin. unfold add_key.
  assert (E : existsb (String.eqb k) ks = true).
  { apply existsb_exists. exists k. split; [exact Hin | apply String.eqb_refl]. }
  now rewrite E.
Qed.

Lemma add_key_notin (ks : list string) (k : string) :
  ~ In k ks -> add_key ks k = ks ++ [k].
Proof.
  intros Hnot. unfold add_key.
  destruct (existsb (String.eqb k) ks) eqn:E; [|reflexivity].
  apply existsb_exists in E as (k' & Hin & Heq).
  apply String.eqb_eq in Heq. subst k'. contradiction.
Qed.

Lemma in_symbol_fields (k : string) (symbols : list string) :
  In k (flat_map symbol_fields symbols) ->
  exists s, In s symbols /\ In k (symbol_fields s).
Proof. intros H. apply in_flat_map in H. exact H. Qed.

(** The keys of the record after the loop over distinct symbols: the four
    base keys, then the four keys of each symbol, without a second
    ["% cash"]. *)
Lemma record_keys_fold (todo done : list string) :
  NoDup (done ++ todo) ->
  fold_left add_key (flat_map symbol_fields todo)
            (base_fields
             ++ filter not_percent_cash (flat_map symbol_fields done))
  = base_fields
    ++ filter not_percent_cash (flat_map symbol_fields (done ++ todo)).
Proof.
  revert done. induction todo as [|s todo IH]; intros done Hnd.
  - cbn. now rewrite app_nil_r.
  - assert (Hs : ~ In s done).
    { intros Hin. apply NoDup_remove_2 in Hnd. apply Hnd.
      apply in_or_app. now left. }
    replace (done ++ s :: todo) with ((done ++ [s]) ++ todo) in *
      by (now rewrite <- app_assoc).
    rewrite <- (IH (done ++ [s]) Hnd). cbn [flat_map].
    rewrite fold_left_app. f_equal.
    rewrite flat_map_app, filter_app. cbn [flat_map]. rewrite app_nil_r.
    set (K := base_fields ++ filter not_percent_cash
                                    (flat_map symbol_fields done)).
    assert (Hfresh : forall k, In k (symbol_fields s) -> k <> "% cash"%string ->
                               ~ In k K).
    { intros k Hk Hnc Hin. unfold K in Hin. apply in_app_or in Hin as [Hb|Hf].
      - cbn in Hk, Hb.
        repeat (destruct Hk as [Hk|Hk]; [subst k|]); try contradiction;
          repeat (destruct Hb as [Hb|Hb]; [try discriminate Hb|]);
          try contradiction.
        now apply Hnc.
      - apply filter_In in Hf as [Hf _].
        apply in_symbol_fields in Hf as (s' & Hs' & Hk').
        cbn in Hk, Hk'.
        repeat (destruct Hk as [Hk|Hk]; [subst k|]); try contradiction;
          repeat (destruct Hk' as [Hk'|Hk']; [try discriminate Hk'|]);
          try contradiction; injection Hk' as ->; contradiction. }
    assert (Hfilter : filter not_percent_cash (symbol_fields s)
                      = [("P:" ++ s)%string; ("Q:" ++ s)%string;
                         ("C:" ++ s)%string]
                        ++ (if String.eqb s "cash" then []
                            else [("% " ++ s)%string])).
    { unfold symbol_fields, not_percent_cash. cbn.
      now destruct (String.eqb s "cash"). }
    rewrite Hfilter. clear Hfilter.
    unfold symbol_fields at 1. cbn [fold_left].
    rewrite (add_key_notin K) by (apply Hfresh; [cbn; auto | discriminate]).
    rewrite (add_key_notin (K ++ _)).
    2:{ intros Hin. apply in_app_or in Hin as [Hin|[Hin|[]]];
          [|discriminate Hin].
        revert Hin. apply Hfresh; [cbn; auto | discriminate]. }
    rewrite (add_key_notin ((K ++ _) ++ _)).
    2:{ intros Hin.
        apply in_app_or in Hin as [Hin|[Hin|[]]]; [|discriminate Hin].
        apply in_app_or in Hin as [Hin|[Hin|[]]]; [|discriminate Hin].
        revert Hin. apply Hfresh; [cbn; auto | discriminate]. }
    destruct (String.eqb s "cash") eqn:Ec.
    + apply String.eqb_eq in Ec. subst s.
      rewrite add_key_in.
      * rewrite app_nil_r. unfold K. now rewrite <- !app_assoc.
      * apply in_or_app. left. apply in_or_app. left. apply in_or_app. left.
        unfold K. cbn. auto.
    + rewrite add_key_notin.
      * unfold K. now rewrite <- !app_assoc.
      * intros Hin.
        apply in_app_or in Hin as [Hin|[Hin|[]]]; [|discriminate Hin].
        apply in_app_or in Hin as [Hin|[Hin|[]]]; [|discriminate Hin].
        apply in_app_or in Hin as [Hin|[Hin|[]]]; [|discriminate Hin].
        revert Hin. apply Hfresh; [cbn; auto|].
        intros Heq. injection Heq as ->. discriminate.
Qed.

Lemma filter_without_cash (symbols : list string) :
  ~ In "cash"%string symbols ->
  filter not_percent_cash (flat_map symbol_fields symbols)
  = flat_map symbol_fields symbols.
Proof.
  induction symbols as [|s symbols IH]; intros Hnot; [reflexivity|].
  cbn [flat_map]. rewrite filter_app, IH by (intros H; apply Hnot; now right).
  f_equal. unfold symbol_fields, not_percent_cash. cbn.
  destruct (String.eqb s "cash") eqn:E; [|reflexivity].
  apply String.eqb_eq in E. exfalso. apply Hnot. now left.
Qed.

Section Reads.
Context {F1 : Type} {P1 : Pseudo.Portfolio F1} {R1 : PseudoRead.Readings F1}.
Context {F2 : Type} {P2 : Real.Portfolio F2} {R2 : RealRead.Readings F2}.

Lemma pseudo_read_symbols_quiet (time : Pseudo.Time) (worth : Q)
      (symbols : list string) (data : dict (datum Pseudo.Time)) :
  quiet (PseudoRead.read_symbols time worth symbols data).
Proof.
  revert data. induction symbols as [|s symbols IH]; intros data;
    cbn [PseudoRead.read_symbols].
  - apply quiet_ret.
  - repeat (apply quiet_bind; [auto with quiet | intros ?]). apply IH.
Qed.

Lemma real_read_symbols_quiet (worth : Q) (symbols : list string)
      (data : dict (datum Real.Datetime)) :
  quiet (RealRead.read_symbols worth symbols data).
Proof.
  revert data. induction symbols as [|s symbols IH]; intros data;
    cbn [RealRead.read_symbols].
  - apply quiet_ret.
  - repeat (apply quiet_bind; [auto with quiet | intros ?]). apply IH.
Qed.

Lemma pseudo_read_symbols_keys (time : Pseudo.Time) (worth : Q)
      (symbols : list string) (data data' : dict (datum Pseudo.Time))
      (env env' : Env F1) :
  PseudoRead.read_symbols time worth symbols data env = (Val data', env') ->
  keys data' = fold_left add_key (flat_map symbol_fields symbols) (keys data).
Proof.
  revert data env. induction symbols as [|s symbols IH]; intros data env H;
    cbn [PseudoRead.read_symbols] in H.
  - injection H as <- _. reflexivity.
  - apply bind_val_inv in H as (price & e1 & _ & H).
    apply bind_val_inv in H as (i1 & e2 & _ & H).
    apply bind_val_inv in H as (i2 & e3 & _ & H).
    apply bind_val_inv in H as (i3 & e4 & _ & H).
    apply bind_val_inv in H as (w & e5 & _ & H).
    apply bind_val_inv in H as (pct & e6 & _ & H).
    rewrite (IH _ _ H), !keys_dict_set_add_key. cbn [flat_map].
    rewrite fold_left_app. reflexivity.
Qed.

Lemma real_read_symbols_keys (worth : Q) (symbols : list string)
      (data data' : dict (datum Real.Datetime)) (env env' : Env F2) :
  RealRead.read_symbols worth symbols data env = (Val data', env') ->
  keys data' = fold_left add_key (flat_map symbol_fields symbols) (keys data).
Proof.
  revert data env. induction symbols as [|s symbols IH]; intros data env H;
    cbn [RealRead.read_symbols] in H.
  - injection H as <- _. reflexivity.
  - apply bind_val_inv in H as (price & e1 & _ & H).
    apply bind_val_inv in H as (i1 & e2 & _ & H).
    apply bind_val_inv in H as (i2 & e3 & _ & H).
    apply bind_val_inv in H as (pct & e4 & _ & H).
    rewrite (IH _ _ H), !keys_dict_set_add_key. cbn [flat_map].
    rewrite fold_left_app. reflexivity.
Qed.

(** X12. A record that [tick_read] returns has, for distinct symbols, the
    keys [time], [principal], [worth], [% cash] followed by [P:], [Q:],
    [C:] and [% ] of each symbol in turn; only a symbol called [cash] adds
    three keys, not four, because its share overwrites [% cash]. Reading
    hands no order to the portfolio. *)
Theorem tick_read_record_keys :
  (forall (self : Manager) (time : Pseudo.Time) (env env' : Env F1)
          (data : dict (datum Pseudo.Time)),
      wf_dict (_running_equilibrium self) ->
      PseudoRead.tick_read self time env = (Val data, env') ->
      keys data
      = base_fields
        ++ filter not_percent_cash
             (flat_map symbol_fields (keys (_running_equilibrium self))) /\
      (~ In "cash"%string (keys (_running_equilibrium self)) ->
       keys data
       = base_fields
         ++ flat_map symbol_fields (keys (_running_equilibrium self))) /\
      submitted env' = submitted env) /\
  (forall (self : Manager) (utcnow : Real.Datetime) (env env' : Env F2)
          (data : dict (datum Real.Datetime)),
      wf_dict (_running_equilibrium self) ->
      RealRead.tick_read self utcnow env = (Val data, env') ->
      keys data
      = base_fields
        ++ filter not_percent_cash
             (flat_map symbol_fields (keys (_running_equilibrium self))) /\
      (~ In "cash"%string (keys (_running_equilibrium self)) ->
       keys data
       = base_fields
         ++ flat_map symbol_fields (keys (_running_equilibrium self))) /\
      submitted env' = submitted env).
Proof.
  split.
  - intros self time env env' data Hwf H.
    assert (Hq : submitted env' = submitted env).
    { revert H. unfold PseudoRead.tick_read.
      apply quiet_bind; [auto with quiet | intros ?].
      apply quiet_bind; [auto with quiet | intros ?].
      apply quiet_bind; [auto with quiet | intros ?].
      apply quiet_bind; [auto with quiet | intros ?].
      apply pseudo_read_symbols_quiet. }
    unfold PseudoRead.tick_read in H.
    apply bind_val_inv in H as (W & e1 & _ & H).
    apply bind_val_inv in H as (e0 & e2 & _ & H).
    apply bind_val_inv in H as (c & e3 & _ & H).
    apply bind_val_inv in H as (pct & e4 & _ & H).
    apply pseudo_read_symbols_keys in H.
    assert (Hk : keys data
                 = base_fields
                   ++ filter not_percent_cash
                        (flat_map symbol_fields
                           (keys (_running_equilibrium self)))).
    { rewrite H. exact (record_keys_fold _ [] Hwf). }
    split; [exact Hk|]. split; [|exact Hq].
    intros Hnc. now rewrite Hk, filter_without_cash.
  - intros self utcnow env env' data Hwf H.
    assert (Hq : submitted env' = submitted env).
    { revert H. unfold RealRead.tick_read.
      apply quiet_bind; [auto with quiet | intros ?].
      apply quiet_bind; [auto with quiet | intros ?].
      apply quiet_bind; [auto with quiet | intros ?].
      apply quiet_bind; [auto with quiet | intros ?].
      apply real_read_symbols_quiet. }
    unfold RealRead.tick_read in H.
    apply bind_val_inv in H as (W & e1 & _ & H).
    apply bind_val_inv in H as (e0 & e2 & _ & H).
    apply bind_val_inv in H as (c & e3 & _ & H).
    apply bind_val_inv in H as (pct & e4 & _ & H).
    apply real_read_symbols_keys in H.
    assert (Hk : keys data
                 = base_fields
                   ++ filter not_percent_cash
                        (flat_map symbol_fields
                           (keys (_running_equilibrium self)))).
    { rewrite H. exact (record_keys_fold _ [] Hwf). }
    split; [exact Hk|]. split; [|exact Hq].
    intros Hnc. now rewrite Hk, filter_without_cash.
Qed.

(** X13. When the portfolio reports a total worth of zero, [tick_read]
    raises [ZeroDivisionError] while it builds the [% cash] entry, right
    after [folio.cash.worth()]: no symbol is looked at. *)
Theorem tick_read_with_zero_worth_raises :
  (forall (self : Manager) (time : Pseudo.Time) (env : Env F1)
          (W c : Q) (f1 f2 : F1),
      Pseudo.folio_worth time (folio env) = (Val W, f1) ->
      W == 0 ->
      PseudoRead.folio_cash_worth f1 = (Val c, f2) ->
      PseudoRead.tick_read self time env
      = (Raise ZeroDivisionError, mkEnv f2 (console env) (submitted env))) /\
  (forall (self : Manager) (utcnow : Real.Datetime) (env : Env F2)
          (W c : Q) (f1 f2 : F2),
      Real.folio_worth (folio env) = (Val W, f1) ->
      W == 0 ->
      RealRead.folio_cash_worth f1 = (Val c, f2) ->
      RealRead.tick_read self utcnow env
      = (Raise ZeroDivisionError, mkEnv f2 (console env) (submitted env))).
Proof.
  split.
  - intros self time env W c f1 f2 Hw Hz Hc.
    unfold PseudoRead.tick_read, bind, call, get, lift_result, py_div.
    rewrite Hw. cbn. rewrite Hc. now rewrite (Qeq_eq_bool _ _ Hz).
  - intros self utcnow env W c f1 f2 Hw Hz Hc.
    unfold RealRead.tick_read, bind, call, get, lift_result, py_div.
    rewrite Hw. cbn. rewrite Hc. now rewrite (Qeq_eq_bool _ _ Hz).
Qed.
End Reads.

Lemma pseudo_tick_orders_follow_equilibrium_witness :
  exists os,
    submitted (snd (Pseudo.tick_write steady_manager (0 : Q) toy_env))
    = submitted toy_env ++ os /\
    subseq (map order_symbol os) ["XYZ"; "OVR"]%string /\
    Forall (fun o => 0 <= order_amount o) os.
Proof.
  destruct (@pseudo_tick_orders_follow_equilibrium Toy toy_pseudo
              steady_manager (0 : Q) toy_env) as (os & Hs & Hq & Hok).
  exists os. split; [exact Hs|]. split; [exact Hq|].
  apply Hok. intros g v H. injection H as <-. discriminate.
Defined.

Lemma tick_read_record_keys_witness :
  (exists data env',
      PseudoRead.tick_read calm_manager (0 : Q) toy_env = (Val data, env') /\
      keys data
      = base_fields ++ flat_map symbol_fields ["XYZ"; "HLD"]%string /\
      submitted env' = submitted toy_env) /\
  (exists data env',
      RealRead.tick_read cash_manager "2021-01-01"%string cash_env
      = (Val data, env') /\
      keys data = base_fields ++ ["P:cash"; "Q:cash"; "C:cash"]%string).
Proof.
  split.
  - destruct (@PseudoRead.tick_read Toy toy_pseudo toy_pseudo_readings
                calm_manager (0 : Q) toy_env)
      as [[data|e] env'] eqn:E; [|vm_compute in E; discriminate E].
    exists data, env'. split; [reflexivity|].
    assert (Hwf : wf_dict (_running_equilibrium calm_manager)).
    { repeat constructor; cbn; intuition discriminate. }
    destruct (proj1 (@tick_read_record_keys Toy toy_pseudo toy_pseudo_readings
                       Toy toy_real toy_real_readings)
                    calm_manager (0 : Q) toy_env env' data Hwf E)
      as (_ & Hk & Hq).
    split; [|exact Hq]. apply Hk. cbn. intuition discriminate.
  - destruct (@RealRead.tick_read Toy toy_real toy_real_readings
                cash_manager "2021-01-01"%string cash_env)
      as [[data|e] env'] eqn:E; [|vm_compute in E; discriminate E].
    exists data, env'. split; [reflexivity|].
    assert (Hwf : wf_dict (_running_equilibrium cash_manager)).
    { repeat constructor; cbn; intuition discriminate. }
    exact (proj1 (proj2 (@tick_read_record_keys Toy toy_pseudo
                           toy_pseudo_readings Toy toy_real toy_real_readings)
                        cash_manager "2021-01-01"%string cash_env env' data
                        Hwf E)).
Defined.

Lemma tick_read_with_zero_worth_raises_witness :
  PseudoRead.tick_read toy_manager (0 : Q) broke_env
  = (Raise ZeroDivisionError, broke_env) /\
  RealRead.tick_read toy_manager "2021-01-01"%string broke_env
  = (Raise ZeroDivisionError, broke_env).
Proof.
  split.
  - apply (proj1 (@tick_read_with_zero_worth_raises Toy toy_pseudo
                    toy_pseudo_readings Toy toy_real toy_real_readings)
                 toy_manager (0 : Q) broke_env 0 400 (folio broke_env)
                 (folio broke_env)); reflexivity.
  - apply (proj2 (@tick_read_with_zero_worth_raises Toy toy_pseudo
                    toy_pseudo_readings Toy toy_real toy_real_readings)
                 toy_manager "2021-01-01"%string broke_env 0 400
                 (folio broke_env) (folio broke_env)); reflexivity.
Defined.

(** ** The order of the sources, and the exact dead zone *)





Section DeadZone.
Context {F1 : Type} {P1 : Pseudo.Portfolio F1}.
Context {F2 : Type} {P2 : Real.Portfolio F2}.

Lemma app_one_neq {A} (xs : list A) (x : A) : xs ++ [x] <> xs.
Proof.
  intros H. apply (f_equal (@List.length A)) in H.
  rewrite length_app in H. cbn in H. lia.
Qed.

(** X15. The dead zone, boundaries included: once a symbol's worths are
    read, the simulated iteration (and the live subroutine with [execute])
    hands no order to the portfolio exactly when the target worth is at most
    the ask worth and the symbol has no position or a bid worth of at most
    the target. *)
Theorem dead_zone_is_exact :
  (forall (self : Manager) (gap : Q) (time : Pseudo.Time) (s : string)
          (r : Q) (env env1 : Env F1) (l : Pseudo.locals),
      Pseudo.observe self gap time s r env = (Val l, env1) ->
      (submitted (snd (Pseudo.loop_body self gap time (s, r) env))
       = submitted env
       <-> Pseudo._target_worth l <= Pseudo._ask_worth l /\
           (Pseudo._item_exists l = false \/
            Pseudo._bid_worth l <= Pseudo._target_worth l))) /\
  (forall (self : Manager) (gap W : Q) (oov : string -> result Q)
          (s : string) (r : Q) (env env1 : Env F2) (l : Real.locals),
      Real.observe self gap W oov s r env = (Val l, env1) ->
      (submitted (snd (Real.guarded_subroutine self true gap W oov s r env))
       = submitted env
       <-> Real.target_worth l <= Real.ask_worth l /\
           (Real.item_exists l = false \/
            Real.bid_worth l <= Real.target_worth l))).
Proof.
  split.
  - intros self gap time s r env env1 l Hobs.
    pose proof (pseudo_observe_quiet _ _ _ _ _ _ _ _ Hobs) as Hsub.
    rewrite (pseudo_loop_body_run self gap time (s, r) env env1 l Hobs).
    cbn [fst].
    destruct (Qlt_le_dec (Pseudo._ask_worth l) (Pseudo._target_worth l))
      as [Hbuy|Hnb].
    + rewrite (pseudo_trade_buy time s l Hbuy).
      destruct (pseudo_market_buy_run s
                  ((Pseudo._target_worth l - Pseudo._ask_worth l)
                   * Pseudo._step l) time env1)
        as (r2 & env2 & -> & Hs2 & _). cbn [snd]. rewrite Hs2, Hsub.
      split; [intros H; now apply app_one_neq in H | intros [H _]; lra].
    + destruct (Pseudo._item_exists l) eqn:Hex;
        [destruct (Qlt_le_dec (Pseudo._target_worth l) (Pseudo._bid_worth l))
           as [Hsell|Hns]|].
      * rewrite (pseudo_trade_sell time s l ltac:(lra) Hex Hsell).
        destruct (pseudo_market_sell_run s
                    ((Pseudo._bid_worth l - Pseudo._target_worth l)
                     * Pseudo._step l) time env1)
          as (r2 & env2 & -> & Hs2 & _). cbn [snd]. rewrite Hs2, Hsub.
        split; [intros H; now apply app_one_neq in H|].
        intros [_ [H|H]]; [discriminate | lra].
      * rewrite (pseudo_trade_hold time s l)
          by first [lra | intros [? ?]; lra].
        cbn. split; [intros _; auto | intros _; exact Hsub].
      * rewrite (pseudo_trade_hold time s l)
          by first [lra | intros [? ?]; congruence].
        cbn. split; [intros _; auto | intros _; exact Hsub].
  - intros self gap W oov s r env env1 l Hobs.
    pose proof (real_observe_quiet _ _ _ _ _ _ _ _ _ Hobs) as Hsub.
    unfold Real.guarded_subroutine, guard.
    rewrite (real_subroutine_run self true gap W oov s r env env1 l Hobs).
    destruct (Qlt_le_dec (Real.ask_worth l) (Real.target_worth l))
      as [Hbuy|Hnb].
    + rewrite (real_decide_buy s l Hbuy).
      change ((t <- ret ?x ;; Real.make_market_order true s t) env1)
        with (Real.make_market_order true s x env1).
      destruct (real_order_buy s "market buy"
                  ((Real.target_worth l - Real.cur_worth l) * Real.step l)
                  env1) as (r2 & env2 & -> & Hs2 & _).
      assert (Hs : submitted (snd (match r2 with
                                   | Val a => (Val a, env2)
                                   | Raise e =>
                                       (Val (PyInt 0),
                                        emit (TRACEBACK, MsgException e) env2)
                                   end))
                   = submitted env ++ [mkOrder Buy s
                        ((Real.target_worth l - Real.cur_worth l)
                         * Real.step l)]).
      { destruct r2; cbn; now rewrite Hs2, Hsub. }
      rewrite Hs.
      split; [intros H; now apply app_one_neq in H | intros [H _]; lra].
    + destruct (Real.item_exists l) eqn:Hex;
        [destruct (Qlt_le_dec (Real.target_worth l) (Real.bid_worth l))
           as [Hsell|Hns]|].
      * rewrite (real_decide_sell s l ltac:(lra) Hex Hsell).
        change ((t <- ret ?x ;; Real.make_market_order true s t) env1)
          with (Real.make_market_order true s x env1).
        destruct (real_order_sell s "market sell"
                    ((Real.cur_worth l - Real.target_worth l) * Real.step l)
                    env1) as (r2 & env2 & -> & Hs2 & _).
        assert (Hs : submitted (snd (match r2 with
                                     | Val a => (Val a, env2)
                                     | Raise e =>
                                         (Val (PyInt 0),
                                          emit (TRACEBACK, MsgException e)
                                               env2)
                                     end))
                     = submitted env ++ [mkOrder Sell s
                          ((Real.cur_worth l - Real.target_worth l)
                           * Real.step l)]).
        { destruct r2; cbn; now rewrite Hs2, Hsub. }
        rewrite Hs.
        split; [intros H; now apply app_one_neq in H|].
        intros [_ [H|H]]; [discriminate | lra].
      * rewrite (real_decide_hold s l) by first [lra | intros [? ?]; lra].
        cbn. split; [intros _; auto | intros _; exact Hsub].
      * rewrite (real_decide_hold s l)
          by first [lra | intros [? ?]; congruence].
        cbn. split; [intros _; auto | intros _; exact Hsub].
Qed.
End DeadZone.

Lemma dead_zone_is_exact_witness :
  (submitted (snd (Pseudo.loop_body toy_manager 86400 (0 : Q)
                                    ("HLD"%string, 1 # 5) toy_env))
   = submitted toy_env
   <-> Pseudo._target_worth toy_hld_pseudo <= Pseudo._ask_worth toy_hld_pseudo
       /\ (Pseudo._item_exists toy_hld_pseudo = false \/
           Pseudo._bid_worth toy_hld_pseudo
           <= Pseudo._target_worth toy_hld_pseudo)) /\
  (submitted (snd (Real.guarded_subroutine toy_manager true 86400 1000
                                           toy_oov "HLD" (1 # 5) toy_env))
   = submitted toy_env
   <-> Real.target_worth toy_hld_real <= Real.ask_worth toy_hld_real /\
       (Real.item_exists toy_hld_real = false \/
        Real.bid_worth toy_hld_real <= Real.target_worth toy_hld_real)).
Proof.
  split.
  - exact (proj1 (@dead_zone_is_exact Toy toy_pseudo Toy toy_real)
                 toy_manager 86400 (0 : Q) "HLD"%string (1 # 5) toy_env
                 toy_env toy_hld_pseudo toy_hld_observed_pseudo).
  - exact (proj2 (@dead_zone_is_exact Toy toy_pseudo Toy toy_real)
                 toy_manager 86400 1000 toy_oov "HLD"%string (1 # 5) toy_env
                 toy_hld_env toy_hld_real toy_hld_observed_real).
Defined.

(** ** Blending nothing, and how the live tick ends *)

(** X16. When no source holds a strictly positive ratio (no sources at
    all, empty sources, or ratios of zero only) and [cash_ratio] is at most
    [1], [linear_update] returns for any coefficients, of any sign and
    number, and installs the empty equilibrium; the initial equilibrium
    stays. *)
Theorem linear_update_of_nothing (o : Obj) (equil_dictl : list (dict Q))
        (coefficients : list Q) :
  Forall (fun d => Forall (fun kv => snd kv == 0) d) equil_dictl ->
  get_cash_ratio (params (self o)) <= 1 ->
  exists o',
    linear_update equil_dictl coefficients o = (Val tt, o') /\
    _running_equilibrium (self o') = [] /\
    _initial_equilibrium (self o') = _initial_equilibrium (self o).
Proof.
  intros Hall Hcash.
  destruct (linear_update_nothing_positive o equil_dictl coefficients
              Hall Hcash) as (o' & Hrun & Hempty).
  exists o'. split; [exact Hrun|]. split; [exact Hempty|].
  rewrite linear_update_run in Hrun.
  destruct (collect_dicts _ _ _ _) as [acc|e]; [|discriminate].
  destruct (normalize _ _) as [new|e]; [|discriminate].
  rewrite equilibrium_setter_run in Hrun. cbv zeta in Hrun.
  destruct (Qle_bool _ _); [|discriminate]. now injection Hrun as <-.
Qed.

Lemma linear_update_of_nothing_witness :
  exists o',
    linear_update [[("A"%string, 0)]; []] [-(2); 5; 1]
                  (fresh_obj [("A"%string, 1 # 2)]) = (Val tt, o') /\
    _running_equilibrium (self o') = [] /\
    _initial_equilibrium (self o')
    = _initial_equilibrium (self (fresh_obj [("A"%string, 1 # 2)])).
Proof.
  apply linear_update_of_nothing.
  - repeat constructor.
  - cbn. discriminate.
Defined.

Section LiveOutcome.
Context {F2 : Type} {P2 : Real.Portfolio F2}.

(** X17. The live [tick_write] ends in one of four ways: [folio.tick],
    [folio.worth] or [folio.open_order_values] raises, and that exception
    leaves [tick_write] before any symbol is looked at; or all three
    return, and [tick_write] returns the gap that [folio.tick] gave,
    whatever happens for the symbols. *)
Theorem live_tick_write_outcomes (self : Manager) (execute : bool)
        (env : Env F2) :
  match Real.folio_tick execute (folio env) with
  | (Raise e, f1) =>
      Real.tick_write self execute env
      = (Raise e, mkEnv f1 (console env) (submitted env))
  | (Val gap, f1) =>
      let line :=
        (INFO, MsgGap gap (Real.datetime_to_string
                             (Real.folio_last_tick_time (folio env)))) in
      match Real.folio_worth f1 with
      | (Raise e, f2) =>
          Real.tick_write self execute env
          = (Raise e, mkEnv f2 (console env ++ [line]) (submitted env))
      | (Val W, f2) =>
          match Real.folio_open_order_values f2 with
          | (Raise e, f3) =>
              Real.tick_write self execute env
              = (Raise e, mkEnv f3 (console env ++ [line]) (submitted env))
          | (Val oov, f3) =>
              exists env',
                Real.tick_write self execute env = (Val (PyFloat gap), env')
          end
      end
  end.
Proof.
  destruct (Real.folio_tick execute (folio env)) as [[gap|e] f1] eqn:Et.
  - cbv zeta.
    destruct (Real.folio_worth f1) as [[W|e] f2] eqn:Ew.
    + destruct (Real.folio_open_order_values f2) as [[oov|e] f3] eqn:Eo.
      * eapply real_tick_write_run; eassumption.
      * unfold Real.tick_write, bind, get, call, _info, modify. cbn.
        rewrite Et. cbn. rewrite Ew. cbn. now rewrite Eo.
    + unfold Real.tick_write, bind, get, call, _info, modify. cbn.
      rewrite Et. cbn. now rewrite Ew.
  - unfold Real.tick_write, bind, get, call. cbn. now rewrite Et.
Qed.
End LiveOutcome.
